(** * metalab-spaceapi: the SpaceAPI endpoint of Metalab, verified

    A shallow embedding of [main.go]: the upstream status translator
    [fetchLabState], the request handler [handleSpaceApiV15] that merges the
    translated state into the process-wide template [spaceApiData], and the
    JSON shape of the [SpaceAPIv15] document as fixed by its struct tags.

    Conventions.
    - A Go [string] and a [[]byte] are both a [string] of 8-bit characters.
    - A pointer field is an [option] ([nil] is [None]); the template is the
      only owner of every object it points to, so no aliasing arises.
    - A slice is a [slice A]: [nil], or a list of elements.
    - [int64] is a [Z].
    - The network and the packages [encoding/json] and [net/http] are not
      part of the repository.  The network is an input ([Upstream]); the two
      packages are modelled below as far as the program uses them. *)

From Stdlib Require Import ZArith List String Ascii Bool Lia.
From Stdlib Require Import DecimalString.
Import ListNotations.

Set Warnings "-register-all".

Local Open Scope string_scope.
Local Open Scope Z_scope.

(* ================================================================== *)
(** ** Bytes and text *)

Definition byte_val (c : ascii) : Z := Z.of_N (N_of_ascii c).
Definition byte_of (z : Z) : ascii := ascii_of_N (Z.to_N z).

Definition dquote : ascii := "034"%char.
Definition backslash : ascii := "092"%char.
Definition newline : ascii := "010"%char.

Definition in_range (lo hi : Z) (c : ascii) : bool :=
  (lo <=? byte_val c) && (byte_val c <=? hi).

Definition string_is_empty (s : string) : bool :=
  match s with EmptyString => true | String _ _ => false end.

Fixpoint drop (n : nat) (s : string) : string :=
  match n, s with
  | O, _ => s
  | S _, EmptyString => EmptyString
  | S k, String _ t => drop k t
  end.

Fixpoint span (p : ascii -> bool) (s : string) : string * string :=
  match s with
  | EmptyString => (EmptyString, EmptyString)
  | String c t =>
      if p c then let (a, b) := span p t in (String c a, b)
      else (EmptyString, s)
  end.

(** [strings.Contains]. *)
Fixpoint contains (s sub : string) : bool :=
  prefix sub s ||
  match s with
  | EmptyString => false
  | String _ t => contains t sub
  end.

(** JSON texts are written with ['] standing for the double quote. *)
Fixpoint q (s : string) : string :=
  match s with
  | EmptyString => EmptyString
  | String c t => String (if Ascii.eqb c "'"%char then dquote else c) (q t)
  end.

(** [strconv.FormatInt(z, 10)]. *)
Definition FormatInt (z : Z) : string := NilZero.string_of_int (Z.to_int z).

(* ================================================================== *)
(** ** Package [unicode/utf8] *)

Module utf8.

Definition RuneError : Z := 65533.
Definition MaxRune : Z := 1114111.

Definition cont (c : ascii) : Z := Z.land (byte_val c) 63.

(** [utf8.DecodeRune]: the first rune of [s] and its width in bytes;
    [(RuneError, 1)] on an invalid encoding, [(RuneError, 0)] on no input. *)
Definition DecodeRune (s : string) : Z * nat :=
  match s with
  | EmptyString => (RuneError, 0%nat)
  | String c0 t =>
      let b0 := byte_val c0 in
      if b0 <? 128 then (b0, 1%nat)
      else if (194 <=? b0) && (b0 <=? 223) then
        match t with
        | String c1 _ =>
            if in_range 128 191 c1
            then (Z.lor (Z.shiftl (Z.land b0 31) 6) (cont c1), 2%nat)
            else (RuneError, 1%nat)
        | _ => (RuneError, 1%nat)
        end
      else if (224 <=? b0) && (b0 <=? 239) then
        let lo := if b0 =? 224 then 160 else 128 in
        let hi := if b0 =? 237 then 159 else 191 in
        match t with
        | String c1 (String c2 _) =>
            if in_range lo hi c1 && in_range 128 191 c2
            then (Z.lor (Z.shiftl (Z.land b0 15) 12)
                    (Z.lor (Z.shiftl (cont c1) 6) (cont c2)), 3%nat)
            else (RuneError, 1%nat)
        | _ => (RuneError, 1%nat)
        end
      else if (240 <=? b0) && (b0 <=? 244) then
        let lo := if b0 =? 240 then 144 else 128 in
        let hi := if b0 =? 244 then 143 else 191 in
        match t with
        | String c1 (String c2 (String c3 _)) =>
            if in_range lo hi c1 && in_range 128 191 c2 && in_range 128 191 c3
            then (Z.lor (Z.shiftl (Z.land b0 7) 18)
                    (Z.lor (Z.shiftl (cont c1) 12)
                       (Z.lor (Z.shiftl (cont c2) 6) (cont c3))), 4%nat)
            else (RuneError, 1%nat)
        | _ => (RuneError, 1%nat)
        end
      else (RuneError, 1%nat)
  end.

Definition tail_byte (r : Z) (shift : Z) : ascii :=
  byte_of (Z.lor 128 (Z.land (Z.shiftr r shift) 63)).

(** [utf8.AppendRune(nil, r)]. *)
Definition EncodeRune (r : Z) : string :=
  if (0 <=? r) && (r <=? 127) then String (byte_of r) EmptyString
  else if (0 <=? r) && (r <=? 2047) then
    String (byte_of (Z.lor 192 (Z.shiftr r 6)))
      (String (tail_byte r 0) EmptyString)
  else if (r <? 0) || (MaxRune <? r) || ((55296 <=? r) && (r <=? 57343)) then
    String (byte_of 239) (String (byte_of 191) (String (byte_of 189) EmptyString))
  else if r <=? 65535 then
    String (byte_of (Z.lor 224 (Z.shiftr r 12)))
      (String (tail_byte r 6) (String (tail_byte r 0) EmptyString))
  else
    String (byte_of (Z.lor 240 (Z.shiftr r 18)))
      (String (tail_byte r 12)
         (String (tail_byte r 6) (String (tail_byte r 0) EmptyString))).

End utf8.

(* ================================================================== *)
(** ** Package [encoding/json] *)

Module json.

(** A JSON text as a tree.  Strings and object keys are held unquoted;
    a number is held as its literal. *)
Inductive value : Type :=
| JNull
| JBool (b : bool)
| JNumber (lit : string)
| JString (s : string)
| JArray (elems : list value)
| JObject (members : list (string * value)).

(** The two errors [json.Unmarshal] reports. *)
Inductive error : Type :=
| SyntaxError
| UnmarshalTypeError (Value : string) (Field : string).

(** *** Encoding *)

Definition hex_digit (n : Z) : ascii :=
  if n <? 10 then byte_of (48 + n) else byte_of (87 + n).

Definition escape_u00 (b : Z) : string :=
  String backslash
    ("u00" ++ String (hex_digit (b / 16)) (String (hex_digit (b mod 16)) EmptyString)).

(** [htmlSafeSet]: the ASCII bytes written as they are. *)
Definition htmlSafe (c : ascii) : bool :=
  (32 <=? byte_val c) && (byte_val c <? 128)
  && negb (Ascii.eqb c dquote) && negb (Ascii.eqb c backslash)
  && negb (Ascii.eqb c "<") && negb (Ascii.eqb c ">") && negb (Ascii.eqb c "&").

Definition escape_ascii (c : ascii) : string :=
  if htmlSafe c then String c EmptyString
  else if Ascii.eqb c backslash || Ascii.eqb c dquote
  then String backslash (String c EmptyString)
  else if byte_val c =? 8 then String backslash "b"
  else if byte_val c =? 12 then String backslash "f"
  else if byte_val c =? 10 then String backslash "n"
  else if byte_val c =? 13 then String backslash "r"
  else if byte_val c =? 9 then String backslash "t"
  else escape_u00 (byte_val c).

Fixpoint escape_aux (fuel : nat) (s : string) : string :=
  match fuel with
  | O => EmptyString
  | S f =>
      match s with
      | EmptyString => EmptyString
      | String c t =>
          if byte_val c <? 128 then escape_ascii c ++ escape_aux f t
          else
            let (r, size) := utf8.DecodeRune s in
            if (r =? utf8.RuneError) && Nat.eqb size 1
            then String backslash "ufffd" ++ escape_aux f t
            else if (r =? 8232) || (r =? 8233)
            then String backslash "u202"
                 ++ String (hex_digit (Z.land r 15)) EmptyString
                 ++ escape_aux f (drop size s)
            else substring 0 size s ++ escape_aux f (drop size s)
      end
  end.

(** [appendString] with HTML escaping, as [json.Marshal] uses it. *)
Definition quote (s : string) : string :=
  String dquote (escape_aux (String.length s) s ++ String dquote EmptyString).

(** The compact text of a tree. *)
Fixpoint render (v : value) : string :=
  match v with
  | JNull => "null"
  | JBool true => "true"
  | JBool false => "false"
  | JNumber lit => lit
  | JString s => quote s
  | JArray elems =>
      "[" ++ (fix go (l : list value) : string :=
                match l with
                | [] => EmptyString
                | x :: r =>
                    render x ++ match r with [] => EmptyString | _ => "," ++ go r end
                end) elems ++ "]"
  | JObject members =>
      "{" ++ (fix go (l : list (string * value)) : string :=
                match l with
                | [] => EmptyString
                | (k, x) :: r =>
                    quote k ++ ":" ++ render x
                    ++ match r with [] => EmptyString | _ => "," ++ go r end
                end) members ++ "}"
  end.

(** Member lookup by key; the first member of that name. *)
Fixpoint lookup (k : string) (members : list (string * value)) : option value :=
  match members with
  | [] => None
  | (k', v) :: r => if String.eqb k k' then Some v else lookup k r
  end.

Definition member (k : string) (v : value) : option value :=
  match v with JObject m => lookup k m | _ => None end.

Definition keys (v : value) : list string :=
  match v with JObject m => map fst m | _ => [] end.

(** *** Decoding *)

Definition is_space (c : ascii) : bool :=
  Ascii.eqb c " " || (byte_val c =? 9) || (byte_val c =? 13) || (byte_val c =? 10).

Fixpoint skip_space (s : string) : string :=
  match s with
  | String c t => if is_space c then skip_space t else s
  | EmptyString => s
  end.

Definition is_digit (c : ascii) : bool := in_range 48 57 c.

Definition is_hex (c : ascii) : bool :=
  in_range 48 57 c || in_range 97 102 c || in_range 65 70 c.

Definition hex_val (c : ascii) : Z :=
  if in_range 48 57 c then byte_val c - 48
  else if in_range 97 102 c then byte_val c - 87
  else byte_val c - 55.

Definition is_simple_escape (e : ascii) : bool :=
  Ascii.eqb e dquote || Ascii.eqb e backslash || Ascii.eqb e "/"
  || Ascii.eqb e "b" || Ascii.eqb e "f" || Ascii.eqb e "n"
  || Ascii.eqb e "r" || Ascii.eqb e "t".

Definition simple_unescape (e : ascii) : ascii :=
  if Ascii.eqb e "b" then byte_of 8
  else if Ascii.eqb e "f" then byte_of 12
  else if Ascii.eqb e "n" then byte_of 10
  else if Ascii.eqb e "r" then byte_of 13
  else if Ascii.eqb e "t" then byte_of 9
  else e.

(** The scanner inside a string literal, after its opening quote: the
    literal's body as written, and the input after the closing quote. *)
Fixpoint scan_string (s : string) : option (string * string) :=
  match s with
  | EmptyString => None
  | String c t =>
      if Ascii.eqb c dquote then Some (EmptyString, t)
      else if Ascii.eqb c backslash then
        match t with
        | String e t1 =>
            if is_simple_escape e then
              match scan_string t1 with
              | Some (raw, rest) => Some (String c (String e raw), rest)
              | None => None
              end
            else if Ascii.eqb e "u" then
              match t1 with
              | String h1 (String h2 (String h3 (String h4 t2))) =>
                  if is_hex h1 && is_hex h2 && is_hex h3 && is_hex h4 then
                    match scan_string t2 with
                    | Some (raw, rest) =>
                        Some (String c (String e (String h1 (String h2
                                (String h3 (String h4 raw))))), rest)
                    | None => None
                    end
                  else None
              | _ => None
              end
            else None
        | EmptyString => None
        end
      else if byte_val c <? 32 then None
      else
        match scan_string t with
        | Some (raw, rest) => Some (String c raw, rest)
        | None => None
        end
  end.

(** [getu4]: the code unit of a leading [\uXXXX], or [-1]. *)
Definition getu4 (s : string) : Z :=
  match s with
  | String b (String u (String h1 (String h2 (String h3 (String h4 _))))) =>
      if Ascii.eqb b backslash && Ascii.eqb u "u"
         && is_hex h1 && is_hex h2 && is_hex h3 && is_hex h4
      then hex_val h1 * 4096 + hex_val h2 * 256 + hex_val h3 * 16 + hex_val h4
      else -1
  | _ => -1
  end.

Fixpoint unquote_aux (fuel : nat) (s : string) : string :=
  match fuel with
  | O => EmptyString
  | S f =>
      match s with
      | EmptyString => EmptyString
      | String c t =>
          if Ascii.eqb c backslash then
            match t with
            | String e t1 =>
                if Ascii.eqb e "u" then
                  let rr := getu4 s in
                  let s1 := drop 6 s in
                  if (55296 <=? rr) && (rr <? 57344) then
                    let rr1 := getu4 s1 in
                    if (rr <? 56320) && (56320 <=? rr1) && (rr1 <? 57344)
                    then utf8.EncodeRune
                           (Z.lor (Z.shiftl (rr - 55296) 10) (rr1 - 56320) + 65536)
                         ++ unquote_aux f (drop 6 s1)
                    else utf8.EncodeRune utf8.RuneError ++ unquote_aux f s1
                  else utf8.EncodeRune rr ++ unquote_aux f s1
                else String (simple_unescape e) (unquote_aux f t1)
            | EmptyString => EmptyString
            end
          else if byte_val c <? 128 then String c (unquote_aux f t)
          else
            let (r, size) := utf8.DecodeRune s in
            utf8.EncodeRune r ++ unquote_aux f (drop size s)
      end
  end.

(** [unquote] on the body of a scanned literal. *)
Definition unquote (raw : string) : string :=
  unquote_aux (String.length raw) raw.

Definition digits1 (s : string) : option (string * string) :=
  let (ds, rest) := span is_digit s in
  if string_is_empty ds then None else Some (ds, rest).

(** The parts of a number, each with the input after it: the sign, the
    integer part, the fraction and the exponent. *)
Definition scan_sign (s : string) : string * string :=
  match s with
  | String c t => if Ascii.eqb c "-" then ("-", t) else (EmptyString, s)
  | EmptyString => (EmptyString, s)
  end.

Definition scan_int (s : string) : option (string * string) :=
  match s with
  | String d t =>
      if Ascii.eqb d "0" then Some ("0", t)
      else if in_range 49 57 d
      then let (ds, rest) := span is_digit t in Some (String d ds, rest)
      else None
  | EmptyString => None
  end.

Definition scan_frac (s : string) : option (string * string) :=
  match s with
  | String c t =>
      if Ascii.eqb c "." then
        match digits1 t with
        | Some (ds, rest) => Some (String c ds, rest)
        | None => None
        end
      else Some (EmptyString, s)
  | EmptyString => Some (EmptyString, s)
  end.

Definition scan_exp_sign (s : string) : string * string :=
  match s with
  | String g t =>
      if Ascii.eqb g "+" || Ascii.eqb g "-"
      then (String g EmptyString, t)
      else (EmptyString, s)
  | EmptyString => (EmptyString, s)
  end.

Definition scan_exp (s : string) : option (string * string) :=
  match s with
  | String c t =>
      if Ascii.eqb c "e" || Ascii.eqb c "E" then
        let (sg, t1) := scan_exp_sign t in
        match digits1 t1 with
        | Some (ds, rest) => Some (String c (sg ++ ds), rest)
        | None => None
        end
      else Some (EmptyString, s)
  | EmptyString => Some (EmptyString, s)
  end.

(** The scanner on a number: the literal and the input after it. *)
Definition scan_number (s : string) : option (string * string) :=
  let (sign, s1) := scan_sign s in
  match scan_int s1 with
  | None => None
  | Some (ip, s2) =>
      match scan_frac s2 with
      | None => None
      | Some (fp, s3) =>
          match scan_exp s3 with
          | None => None
          | Some (ep, s4) => Some (sign ++ ip ++ fp ++ ep, s4)
          end
      end
  end.

Definition maxNestingDepth : N := 10000.

(** A reader of the head of the input: what it read and the input after
    it, or nothing on a syntax error.  The number it takes is the count of
    arrays and objects open around the head. *)
Definition reader (A : Type) : Type := N -> string -> option (A * string).

(** One value, given the readers for what an object and an array hold. *)
Definition value_step (read_members : reader (list (string * value)))
    (read_elements : reader (list value)) : reader value :=
  fun depth s =>
    match s with
    | EmptyString => None
    | String c t =>
        if Ascii.eqb c "{" then
          if (maxNestingDepth <=? depth)%N then None
          else
            match skip_space t with
            | String c' r =>
                if Ascii.eqb c' "}" then Some (JObject [], r)
                else
                  match read_members (depth + 1)%N (String c' r) with
                  | Some (m, r') => Some (JObject m, r')
                  | None => None
                  end
            | EmptyString => None
            end
        else if Ascii.eqb c "[" then
          if (maxNestingDepth <=? depth)%N then None
          else
            match skip_space t with
            | String c' r =>
                if Ascii.eqb c' "]" then Some (JArray [], r)
                else
                  match read_elements (depth + 1)%N (String c' r) with
                  | Some (l, r') => Some (JArray l, r')
                  | None => None
                  end
            | EmptyString => None
            end
        else if Ascii.eqb c dquote then
          match scan_string t with
          | Some (raw, r) => Some (JString (unquote raw), r)
          | None => None
          end
        else if Ascii.eqb c "-" || is_digit c then
          match scan_number s with
          | Some (lit, r) => Some (JNumber lit, r)
          | None => None
          end
        else if prefix "true" s then Some (JBool true, drop 4 s)
        else if prefix "false" s then Some (JBool false, drop 5 s)
        else if prefix "null" s then Some (JNull, drop 4 s)
        else None
    end.

(** The members of an object from its first key on, up to the closing
    brace. *)
Definition members_step (read_value : reader value)
    (read_members : reader (list (string * value)))
  : reader (list (string * value)) :=
  fun depth s =>
    match s with
    | String c t =>
        if Ascii.eqb c dquote then
          match scan_string t with
          | Some (raw, r) =>
              match skip_space r with
              | String colon r1 =>
                  if Ascii.eqb colon ":" then
                    match read_value depth (skip_space r1) with
                    | Some (v, r2) =>
                        match skip_space r2 with
                        | String sep r3 =>
                            if Ascii.eqb sep "," then
                              match read_members depth (skip_space r3) with
                              | Some (m, r4) => Some ((unquote raw, v) :: m, r4)
                              | None => None
                              end
                            else if Ascii.eqb sep "}"
                            then Some ([(unquote raw, v)], r3)
                            else None
                        | EmptyString => None
                        end
                    | None => None
                    end
                  else None
              | EmptyString => None
              end
          | None => None
          end
        else None
    | EmptyString => None
    end.

(** The elements of an array from the first on, up to the closing
    bracket. *)
Definition elements_step (read_value : reader value)
    (read_elements : reader (list value)) : reader (list value) :=
  fun depth s =>
    match read_value depth s with
    | Some (v, r) =>
        match skip_space r with
        | String sep r1 =>
            if Ascii.eqb sep "," then
              match read_elements depth (skip_space r1) with
              | Some (l, r2) => Some (v :: l, r2)
              | None => None
              end
            else if Ascii.eqb sep "]" then Some ([v], r1)
            else None
        | EmptyString => None
        end
    | None => None
    end.

(** The three readers, by recursion on the number of nested calls. *)
Fixpoint parse_value (fuel : nat) : reader value :=
  fun depth s =>
    match fuel with
    | O => None
    | S f => value_step (parse_members f) (parse_elements f) depth s
    end

with parse_members (fuel : nat) : reader (list (string * value)) :=
  fun depth s =>
    match fuel with
    | O => None
    | S f => members_step (parse_value f) (parse_members f) depth s
    end

with parse_elements (fuel : nat) : reader (list value) :=
  fun depth s =>
    match fuel with
    | O => None
    | S f => elements_step (parse_value f) (parse_elements f) depth s
    end.

(** [checkValid] and the reading of the text in one pass: [None] is a
    [SyntaxError].  The fuel is enough for any input: more of it gives the
    same result ([parse_fuel_enough] below). *)
Definition parse (data : string) : option value :=
  match parse_value (2 * String.length data + 2) 0%N (skip_space data) with
  | Some (v, rest) =>
      if string_is_empty (skip_space rest) then Some v else None
  | None => None
  end.

(** The name of a JSON value's kind in an [UnmarshalTypeError]. *)
Definition kind (v : value) : string :=
  match v with
  | JNull => "null"
  | JBool _ => "bool"
  | JNumber _ => "number"
  | JString _ => "string"
  | JArray _ => "array"
  | JObject _ => "object"
  end.

(** [foldName], as far as a key can fold to an ASCII name: ASCII letters
    fold to upper case, and of the other runes only the long s (U+017F)
    and the Kelvin sign (U+212A) fold to an ASCII letter. *)
Fixpoint foldName_aux (fuel : nat) (s : string) : string :=
  match fuel with
  | O => EmptyString
  | S f =>
      match s with
      | EmptyString => EmptyString
      | String c t =>
          if byte_val c <? 128 then
            String (if in_range 97 122 c then byte_of (byte_val c - 32) else c)
              (foldName_aux f t)
          else
            let (r, size) := utf8.DecodeRune s in
            let r' := if r =? 383 then 83 else if r =? 8490 then 75 else r in
            utf8.EncodeRune r' ++ foldName_aux f (drop size s)
      end
  end.

Definition foldName (s : string) : string := foldName_aux (String.length s) s.

End json.

(* ================================================================== *)
(** ** Values of the Go types the schema uses *)

(** A slice: [nil], or its elements in order. *)
Definition slice (A : Type) : Type := option (list A).

Definition len {A : Type} (s : slice A) : nat :=
  match s with None => O | Some l => List.length l end.

(** A [float64] is carried as the decimal [mantissa * 10^-scale] it was
    written as.  For a decimal of at most 15 significant digits this is
    exact as far as the program goes: the nearest double prints back as
    that decimal, and nothing else is done with a float than testing it
    for zero and printing it. *)
Record float64 : Type := { mantissa : Z; scale : nat }.

Definition float64_is_zero (f : float64) : bool := mantissa f =? 0.

Fixpoint zeros (n : nat) : string :=
  match n with O => EmptyString | S k => String "0" (zeros k) end.

Fixpoint rstrip_zeros (s : string) : string :=
  match s with
  | EmptyString => EmptyString
  | String c t =>
      let t' := rstrip_zeros t in
      if Ascii.eqb c "0" && string_is_empty t' then EmptyString else String c t'
  end.

Definition with_point (int_part frac : string) : string :=
  if string_is_empty frac then int_part else int_part ++ "." ++ frac.

(** [strconv.FormatFloat(f, 'f', -1, 64)]. *)
Definition format_f (f : float64) : string :=
  let ds := FormatInt (Z.abs (mantissa f)) in
  let padded := zeros (S (scale f) - String.length ds) ++ ds in
  let n := (String.length padded - scale f)%nat in
  (if mantissa f <? 0 then "-" else EmptyString)
  ++ with_point (substring 0 n padded) (rstrip_zeros (drop n padded)).

(** [strconv.FormatFloat(f, 'e', -1, 64)] where the encoder below uses it
    (exponent below -6 or above 20), the exponent written the way
    [encoding/json] rewrites it ([e-07] becomes [e-7]). *)
Definition format_e (f : float64) : string :=
  let ds := FormatInt (Z.abs (mantissa f)) in
  let e := Z.of_nat (String.length ds) - 1 - Z.of_nat (scale f) in
  let es := FormatInt (Z.abs e) in
  (if mantissa f <? 0 then "-" else EmptyString)
  ++ with_point (substring 0 1 ds) (rstrip_zeros (drop 1 ds))
  ++ "e" ++ (if e <? 0 then "-" else "+") ++ es.

(** The float encoder of [encoding/json]. *)
Definition FormatFloat (f : float64) : string :=
  let a := Z.abs (mantissa f) in
  if negb (a =? 0)
     && ((a * 10 ^ 6 <? 10 ^ Z.of_nat (scale f))
         || (10 ^ (21 + Z.of_nat (scale f)) <=? a))
  then format_e f else format_f f.

(** *** Struct fields in a JSON object, by struct tag *)

Module tag.
Import json.

Definition members : Type := list (string * value).

(** A field without [omitempty]. *)
Definition always (k : string) (v : value) : members := [(k, v)].

(** A field with [omitempty]: left out when [isEmptyValue]. *)
Definition omitempty (empty : bool) (k : string) (v : value) : members :=
  if empty then [] else [(k, v)].

Definition ptr {A : Type} (enc : A -> value) (p : option A) : value :=
  match p with None => JNull | Some x => enc x end.

Definition slc {A : Type} (enc : A -> value) (s : slice A) : value :=
  match s with None => JNull | Some l => JArray (map enc l) end.

Definition int64 (z : Z) : value := JNumber (FormatInt z).
Definition float (f : float64) : value := JNumber (FormatFloat f).

Definition omit_string (k s : string) : members :=
  omitempty (string_is_empty s) k (JString s).
Definition omit_int64 (k : string) (z : Z) : members :=
  omitempty (z =? 0) k (int64 z).
Definition omit_float (k : string) (f : float64) : members :=
  omitempty (float64_is_zero f) k (float f).
Definition omit_ptr {A : Type} (k : string) (enc : A -> value) (p : option A)
  : members :=
  omitempty (match p with None => true | Some _ => false end) k (ptr enc p).
Definition omit_slice {A : Type} (k : string) (enc : A -> value) (s : slice A)
  : members :=
  omitempty (Nat.eqb (len s) 0) k (slc enc s).

End tag.

(* ================================================================== *)
(** ** The schema: [SpaceAPIv15] and its substructures

    One record per struct of [main.go], fields in declaration order and
    named [Struct_Field]. *)

Record Area : Type := {
  Area_Name : string;
  Area_Description : string;
  Area_SquareMeters : float64
}.

Record Location : Type := {
  Location_Address : string;
  Location_Lat : float64;
  Location_Lon : float64;
  Location_Timezone : string;
  Location_CountryCode : string;
  Location_Hint : string;
  Location_Areas : slice Area
}.

Record SpaceFed : Type := {
  SpaceFed_SpaceNet : bool;
  SpaceFed_SpaceSAML : bool
}.

Record StateIcon : Type := {
  StateIcon_Open : string;
  StateIcon_Closed : string
}.

Record State : Type := {
  State_Open : option bool;
  State_LastChange : Z;
  State_TriggerPerson : string;
  State_Message : string;
  State_Icon : option StateIcon
}.

Record Event : Type := {
  Event_Name : string;
  Event_Type : string;
  Event_Timestamp : Z;
  Event_Extra : string
}.

Record Keymaster : Type := {
  Keymaster_Name : string;
  Keymaster_IRCNick : string;
  Keymaster_Phone : string;
  Keymaster_Email : string;
  Keymaster_Twitter : string;
  Keymaster_XMPP : string;
  Keymaster_Mastodon : string;
  Keymaster_Matrix : string
}.

Record Contact : Type := {
  Contact_Phone : string;
  Contact_SIP : string;
  Contact_Keymasters : slice Keymaster;
  Contact_IRC : string;
  Contact_Twitter : string;
  Contact_Mastodon : string;
  Contact_Facebook : string;
  Contact_Identica : string;
  Contact_Foursquare : string;
  Contact_Email : string;
  Contact_ML : string;
  Contact_XMPP : string;
  Contact_IssueMail : string;
  Contact_Gopher : string;
  Contact_Matrix : string;
  Contact_Mumble : string
}.

Record BaseSensor : Type := {
  BaseSensor_Location : string;
  BaseSensor_Name : string;
  BaseSensor_Description : string;
  BaseSensor_LastChange : Z
}.

(** [TempSensor], [CO2Sensor], [BarometerSensor], [HumiditySensor] and
    [BeverageSensor] are the same struct under five names: an embedded
    [BaseSensor], a value and a unit. *)
Record ValueSensor : Type := {
  ValueSensor_Base : BaseSensor;
  ValueSensor_Value : float64;
  ValueSensor_Unit : string
}.

Definition TempSensor : Type := ValueSensor.
Definition CO2Sensor : Type := ValueSensor.
Definition BarometerSensor : Type := ValueSensor.
Definition HumiditySensor : Type := ValueSensor.
Definition BeverageSensor : Type := ValueSensor.

Record DoorSensor : Type := {
  DoorSensor_Base : BaseSensor;
  DoorSensor_Value : bool
}.

Record RadiationSensor : Type := {
  RadiationSensor_Base : BaseSensor;
  RadiationSensor_Value : float64;
  RadiationSensor_Unit : string;
  RadiationSensor_DeadTime : float64;
  RadiationSensor_ConversionFactor : float64
}.

Record RadiationSensors : Type := {
  RadiationSensors_Alpha : slice RadiationSensor;
  RadiationSensors_Beta : slice RadiationSensor;
  RadiationSensors_Gamma : slice RadiationSensor;
  RadiationSensors_BetaGamma : slice RadiationSensor
}.

Record Sensors : Type := {
  Sensors_Temperature : slice TempSensor;
  Sensors_CarbonDioxide : slice CO2Sensor;
  Sensors_DoorLocked : slice DoorSensor;
  Sensors_Barometer : slice BarometerSensor;
  Sensors_Radiation : option RadiationSensors;
  Sensors_Humidity : slice HumiditySensor;
  Sensors_BeverageSupply : slice BeverageSensor
}.

Record Feed : Type := {
  Feed_Type : string;
  Feed_URL : string
}.

Record Feeds : Type := {
  Feeds_Blog : option Feed;
  Feeds_Wiki : option Feed;
  Feeds_Calendar : option Feed;
  Feeds_Flickr : option Feed
}.

Record Link : Type := {
  Link_Name : string;
  Link_Description : string;
  Link_URL : string
}.

Record Cache : Type := {
  Cache_Schedule : string
}.

Record RadioShow : Type := {
  RadioShow_Name : string;
  RadioShow_URL : string;
  RadioShow_Type : string;
  RadioShow_StartTime : string;
  RadioShow_EndTime : string;
  RadioShow_StreamURL : string;
  RadioShow_StreamType : string;
  RadioShow_Description : string;
  RadioShow_Tags : slice string
}.

Record SpaceAPIv15 : Type := {
  SpaceAPIv15_APICompatibility : slice string;
  SpaceAPIv15_Space : string;
  SpaceAPIv15_Logo : string;
  SpaceAPIv15_URL : string;
  SpaceAPIv15_Location : option Location;
  SpaceAPIv15_SpaceFed : option SpaceFed;
  SpaceAPIv15_Cam : slice string;
  SpaceAPIv15_State : option State;
  SpaceAPIv15_Events : slice Event;
  SpaceAPIv15_Contact : option Contact;
  SpaceAPIv15_Sensors : option Sensors;
  SpaceAPIv15_Feeds : option Feeds;
  SpaceAPIv15_Links : slice Link;
  SpaceAPIv15_Cache : option Cache;
  SpaceAPIv15_Projects : slice string;
  SpaceAPIv15_RadioShow : option RadioShow
}.

(** The response of the upstream status API in its earlier shape; the
    code that read it is commented out. *)
Record LabStatusAPIResponse : Type := {
  LabStatusAPIResponse_State : string;
  LabStatusAPIResponse_LastChangedUnix : Z;
  LabStatusAPIResponse_LastUpdatedUnix : Z
}.

(** The type local to [fetchLabState]. *)
Record LabStatus : Type := { Status : string }.

(* ================================================================== *)
(** ** [json.Marshal] on the schema

    What the reflection of [encoding/json] does on each struct: the fields
    in declaration order under the key of their tag, an [omitempty] field
    left out when empty, an embedded struct's fields in its place. *)

Module encode.
Import json tag.

Definition Area (a : Area) : value :=
  JObject (omit_string "name" (Area_Name a)
           ++ omit_string "description" (Area_Description a)
           ++ always "square_meters" (float (Area_SquareMeters a))).

Definition Location (l : Location) : value :=
  JObject (omit_string "address" (Location_Address l)
           ++ omit_float "lat" (Location_Lat l)
           ++ omit_float "lon" (Location_Lon l)
           ++ omit_string "timezone" (Location_Timezone l)
           ++ omit_string "country_code" (Location_CountryCode l)
           ++ omit_string "hint" (Location_Hint l)
           ++ omit_slice "areas" Area (Location_Areas l)).

Definition SpaceFed (f : SpaceFed) : value :=
  JObject (always "spacenet" (JBool (SpaceFed_SpaceNet f))
           ++ always "spacesaml" (JBool (SpaceFed_SpaceSAML f))).

Definition StateIcon (i : StateIcon) : value :=
  JObject (always "open" (JString (StateIcon_Open i))
           ++ always "closed" (JString (StateIcon_Closed i))).

Definition State (s : State) : value :=
  JObject (always "open" (ptr JBool (State_Open s))
           ++ omit_int64 "lastchange" (State_LastChange s)
           ++ omit_string "trigger_person" (State_TriggerPerson s)
           ++ omit_string "message" (State_Message s)
           ++ omit_ptr "icon" StateIcon (State_Icon s)).

Definition Event (e : Event) : value :=
  JObject (always "name" (JString (Event_Name e))
           ++ always "type" (JString (Event_Type e))
           ++ always "timestamp" (int64 (Event_Timestamp e))
           ++ omit_string "extra" (Event_Extra e)).

Definition Keymaster (k : Keymaster) : value :=
  JObject (omit_string "name" (Keymaster_Name k)
           ++ omit_string "irc_nick" (Keymaster_IRCNick k)
           ++ omit_string "phone" (Keymaster_Phone k)
           ++ omit_string "email" (Keymaster_Email k)
           ++ omit_string "twitter" (Keymaster_Twitter k)
           ++ omit_string "xmpp" (Keymaster_XMPP k)
           ++ omit_string "mastodon" (Keymaster_Mastodon k)
           ++ omit_string "matrix" (Keymaster_Matrix k)).

Definition Contact (c : Contact) : value :=
  JObject (omit_string "phone" (Contact_Phone c)
           ++ omit_string "sip" (Contact_SIP c)
           ++ omit_slice "keymasters" Keymaster (Contact_Keymasters c)
           ++ omit_string "irc" (Contact_IRC c)
           ++ omit_string "twitter" (Contact_Twitter c)
           ++ omit_string "mastodon" (Contact_Mastodon c)
           ++ omit_string "facebook" (Contact_Facebook c)
           ++ omit_string "identica" (Contact_Identica c)
           ++ omit_string "foursquare" (Contact_Foursquare c)
           ++ omit_string "email" (Contact_Email c)
           ++ omit_string "ml" (Contact_ML c)
           ++ omit_string "xmpp" (Contact_XMPP c)
           ++ omit_string "issue_mail" (Contact_IssueMail c)
           ++ omit_string "gopher" (Contact_Gopher c)
           ++ omit_string "matrix" (Contact_Matrix c)
           ++ omit_string "mumble" (Contact_Mumble c)).

Definition BaseSensor (b : BaseSensor) : members :=
  (always "location" (JString (BaseSensor_Location b))
   ++ omit_string "name" (BaseSensor_Name b)
   ++ omit_string "description" (BaseSensor_Description b)
   ++ omit_int64 "lastchange" (BaseSensor_LastChange b))%list.

Definition ValueSensor (s : ValueSensor) : value :=
  JObject (BaseSensor (ValueSensor_Base s)
           ++ always "value" (float (ValueSensor_Value s))
           ++ always "unit" (JString (ValueSensor_Unit s))).

Definition DoorSensor (s : DoorSensor) : value :=
  JObject (BaseSensor (DoorSensor_Base s)
           ++ always "value" (JBool (DoorSensor_Value s))).

Definition RadiationSensor (s : RadiationSensor) : value :=
  JObject (BaseSensor (RadiationSensor_Base s)
           ++ always "value" (float (RadiationSensor_Value s))
           ++ always "unit" (JString (RadiationSensor_Unit s))
           ++ omit_float "dead_time" (RadiationSensor_DeadTime s)
           ++ omit_float "conversion_factor" (RadiationSensor_ConversionFactor s)).

Definition RadiationSensors (r : RadiationSensors) : value :=
  JObject (omit_slice "alpha" RadiationSensor (RadiationSensors_Alpha r)
           ++ omit_slice "beta" RadiationSensor (RadiationSensors_Beta r)
           ++ omit_slice "gamma" RadiationSensor (RadiationSensors_Gamma r)
           ++ omit_slice "beta_gamma" RadiationSensor (RadiationSensors_BetaGamma r)).

Definition Sensors (s : Sensors) : value :=
  JObject (omit_slice "temperature" ValueSensor (Sensors_Temperature s)
           ++ omit_slice "carbondioxide" ValueSensor (Sensors_CarbonDioxide s)
           ++ omit_slice "door_locked" DoorSensor (Sensors_DoorLocked s)
           ++ omit_slice "barometer" ValueSensor (Sensors_Barometer s)
           ++ omit_ptr "radiation" RadiationSensors (Sensors_Radiation s)
           ++ omit_slice "humidity" ValueSensor (Sensors_Humidity s)
           ++ omit_slice "beverage_supply" ValueSensor (Sensors_BeverageSupply s)).

Definition Feed (f : Feed) : value :=
  JObject (omit_string "type" (Feed_Type f)
           ++ always "url" (JString (Feed_URL f))).

Definition Feeds (f : Feeds) : value :=
  JObject (omit_ptr "blog" Feed (Feeds_Blog f)
           ++ omit_ptr "wiki" Feed (Feeds_Wiki f)
           ++ omit_ptr "calendar" Feed (Feeds_Calendar f)
           ++ omit_ptr "flickr" Feed (Feeds_Flickr f)).

Definition Link (l : Link) : value :=
  JObject (always "name" (JString (Link_Name l))
           ++ omit_string "description" (Link_Description l)
           ++ always "url" (JString (Link_URL l))).

Definition Cache (c : Cache) : value :=
  JObject (always "schedule" (JString (Cache_Schedule c))).

Definition RadioShow (r : RadioShow) : value :=
  JObject (always "name" (JString (RadioShow_Name r))
           ++ always "url" (JString (RadioShow_URL r))
           ++ always "type" (JString (RadioShow_Type r))
           ++ omit_string "start_time" (RadioShow_StartTime r)
           ++ omit_string "end_time" (RadioShow_EndTime r)
           ++ omit_string "stream_url" (RadioShow_StreamURL r)
           ++ omit_string "stream_type" (RadioShow_StreamType r)
           ++ omit_string "description" (RadioShow_Description r)
           ++ omit_slice "tags" JString (RadioShow_Tags r)).

Definition SpaceAPIv15 (d : SpaceAPIv15) : value :=
  JObject (always "api_compatibility" (slc JString (SpaceAPIv15_APICompatibility d))
           ++ always "space" (JString (SpaceAPIv15_Space d))
           ++ omit_string "logo" (SpaceAPIv15_Logo d)
           ++ omit_string "url" (SpaceAPIv15_URL d)
           ++ omit_ptr "location" Location (SpaceAPIv15_Location d)
           ++ omit_ptr "spacefed" SpaceFed (SpaceAPIv15_SpaceFed d)
           ++ omit_slice "cam" JString (SpaceAPIv15_Cam d)
           ++ omit_ptr "state" State (SpaceAPIv15_State d)
           ++ omit_slice "events" Event (SpaceAPIv15_Events d)
           ++ omit_ptr "contact" Contact (SpaceAPIv15_Contact d)
           ++ omit_ptr "sensors" Sensors (SpaceAPIv15_Sensors d)
           ++ omit_ptr "feeds" Feeds (SpaceAPIv15_Feeds d)
           ++ omit_slice "links" Link (SpaceAPIv15_Links d)
           ++ omit_ptr "cache" Cache (SpaceAPIv15_Cache d)
           ++ omit_slice "projects" JString (SpaceAPIv15_Projects d)
           ++ omit_ptr "radio_show" RadioShow (SpaceAPIv15_RadioShow d)).

End encode.

(** [json.Marshal(spaceApiData)]: the bytes of the document.  It returns no
    error on this type (no channel, function, cyclic or non-finite value). *)
Definition json_Marshal (d : SpaceAPIv15) : string :=
  json.render (encode.SpaceAPIv15 d).

(* ================================================================== *)
(** ** The template *)

Definition spaceApiData : SpaceAPIv15 := {|
  SpaceAPIv15_APICompatibility := Some ["14"; "15"];
  SpaceAPIv15_Space := "Metalab";
  SpaceAPIv15_Logo := "https://metalab.at/wiki/images/9/93/Metalab.at.svg";
  SpaceAPIv15_URL := "https://metalab.at";
  SpaceAPIv15_Location := Some {|
    Location_Address := "Verein Metalab, Rathausstraße 6, 1010 Wien, Austria";
    Location_Lat := {| mantissa := 482093723; scale := 7 |};
    Location_Lon := {| mantissa := 16356099; scale := 6 |};
    Location_Timezone := "Europe/Vienna";
    Location_CountryCode := "AT";
    Location_Hint := EmptyString;
    Location_Areas := None
  |};
  SpaceAPIv15_SpaceFed := Some {|
    SpaceFed_SpaceNet := false;
    SpaceFed_SpaceSAML := false
  |};
  SpaceAPIv15_Cam := None;
  SpaceAPIv15_State := Some {|
    State_Open := None;
    State_LastChange := 0;
    State_TriggerPerson := EmptyString;
    State_Message := EmptyString;
    State_Icon := None
  |};
  SpaceAPIv15_Events := None;
  SpaceAPIv15_Contact := Some {|
    Contact_Phone := "+43 720 002323";
    Contact_SIP := "6382";
    Contact_Keymasters := None;
    Contact_IRC := EmptyString;
    Contact_Twitter := EmptyString;
    Contact_Mastodon := "@metalab@chaos.social";
    Contact_Facebook := EmptyString;
    Contact_Identica := EmptyString;
    Contact_Foursquare := EmptyString;
    Contact_Email := EmptyString;
    Contact_ML := EmptyString;
    Contact_XMPP := EmptyString;
    Contact_IssueMail := EmptyString;
    Contact_Gopher := EmptyString;
    Contact_Matrix := EmptyString;
    Contact_Mumble := EmptyString
  |};
  SpaceAPIv15_Sensors := None;
  SpaceAPIv15_Feeds := None;
  SpaceAPIv15_Links := Some [ {|
    Link_Name := "Metalab Wiki";
    Link_Description := EmptyString;
    Link_URL := "https://metalab.at/wiki"
  |} ];
  SpaceAPIv15_Cache := None;
  SpaceAPIv15_Projects := Some [
    "https://github.com/metalab";
    "https://metalab.at/wiki/Projekte_Neu"
  ];
  SpaceAPIv15_RadioShow := None
|}.

(* ================================================================== *)
(** ** Package [net/http], server side *)

Module http.

Definition StatusOK : Z := 200.
Definition StatusNotFound : Z := 404.
Definition StatusInternalServerError : Z := 500.

(** A header map, one value per key. *)
Definition Header : Type := list (string * string).

Fixpoint Del (k : string) (h : Header) : Header :=
  match h with
  | [] => []
  | (k', v) :: r => if String.eqb k k' then Del k r else (k', v) :: Del k r
  end.

Definition Set_ (k v : string) (h : Header) : Header :=
  (Del k h ++ [(k, v)])%list.

(** What a handler has put on its [ResponseWriter]: the header map, the
    status once it is written, and the body so far. *)
Record ResponseWriter : Type := {
  header : Header;
  status : option Z;
  body : string
}.

Definition fresh : ResponseWriter :=
  {| header := []; status := None; body := EmptyString |}.

Definition SetHeader (k v : string) (w : ResponseWriter) : ResponseWriter :=
  {| header := Set_ k v (header w); status := status w; body := body w |}.

Definition DelHeader (k : string) (w : ResponseWriter) : ResponseWriter :=
  {| header := Del k (header w); status := status w; body := body w |}.

(** [w.WriteHeader(code)]; a second call is ignored. *)
Definition WriteHeader (code : Z) (w : ResponseWriter) : ResponseWriter :=
  match status w with
  | Some _ => w
  | None => {| header := header w; status := Some code; body := body w |}
  end.

(** [w.Write(p)]; the first write sends status 200 if none was sent. *)
Definition Write (p : string) (w : ResponseWriter) : ResponseWriter :=
  let w' := WriteHeader StatusOK w in
  {| header := header w'; status := status w'; body := body w' ++ p |}.

(** [http.Error(w, error, code)]. *)
Definition Error (w : ResponseWriter) (error : string) (code : Z)
  : ResponseWriter :=
  let w1 := DelHeader "Content-Length" w in
  let w2 := SetHeader "Content-Type" "text/plain; charset=utf-8" w1 in
  let w3 := SetHeader "X-Content-Type-Options" "nosniff" w2 in
  Write (error ++ String newline EmptyString) (WriteHeader code w3).

(** The part of a request the mux dispatches on: the method and the path.
    The path is the one the patterns are matched against, that is, a path
    in clean form: the server answers a request whose path is not clean
    ([//v15], [/x/../v15]) with a redirect to the clean one, and the
    request [OPTIONS *] by itself, before any pattern is looked at.  Such
    requests reach no handler and are not described further here. *)
Record Request : Type := {
  Method : string;
  Path : string
}.

(** A [ServeMux] holding patterns that are a plain path without a
    trailing slash, as [main] registers them: such a pattern matches the
    requests of exactly that path, whatever their method.  [Handler] is the
    handler registered for the path of [r], if there is one. *)
Definition ServeMux (H : Type) : Type := list (string * H).

Definition HandleFunc {H : Type} (pattern : string) (handler : H)
    (mux : ServeMux H) : ServeMux H :=
  (mux ++ [(pattern, handler)])%list.

Fixpoint Handler {H : Type} (mux : ServeMux H) (r : Request) : option H :=
  match mux with
  | [] => None
  | (pattern, h) :: rest =>
      if String.eqb pattern (Path r) then Some h else Handler rest r
  end.

Definition NotFound (w : ResponseWriter) : ResponseWriter :=
  Error w "404 page not found" StatusNotFound.

End http.

(* ================================================================== *)
(** ** The program *)

(** A Go [error] value, by where it was made. *)
Inductive error : Type :=
| ErrDo (text : string)       (* returned by [client.Do] *)
| ErrReadAll (text : string)  (* returned by [io.ReadAll] *)
| Errorf (text : string).     (* made by [fmt.Errorf] *)

(** [err.Error()]. *)
Definition Error (e : error) : string :=
  match e with ErrDo t | ErrReadAll t | Errorf t => t end.

(** What the network answers to the one [GET] that [fetchLabState] sends:
    the request may fail, the reading of the body may fail, or a response
    with some status code and body arrives.  ([http.NewRequest] returns no
    error on the method and URL written in the source.) *)
Inductive Upstream : Type :=
| DoFails (text : string)
| ReadFails (text : string)
| Responds (code : Z) (body : string).

Definition Pointer {T : Type} (d : T) : option T := Some d.

(** The decoder keeps the first error it meets and goes on. *)
Definition saveError (old : option json.error) (e : json.error)
  : option json.error :=
  match old with Some _ => old | None => Some e end.

(** The members of an object read into a [LabStatus]: a member whose key
    folds to the field name stores a string value, leaves the field on
    [null], and records a type error on any other value; the last such
    member wins. *)
Fixpoint decode_LabStatus (members : list (string * json.value))
    (r : LabStatus) (err : option json.error) : LabStatus * option json.error :=
  match members with
  | [] => (r, err)
  | (k, v) :: rest =>
      if String.eqb (json.foldName k) (json.foldName "status") then
        match v with
        | json.JString s => decode_LabStatus rest {| Status := s |} err
        | json.JNull => decode_LabStatus rest r err
        | _ =>
            decode_LabStatus rest r
              (saveError err (json.UnmarshalTypeError (json.kind v) "status"))
        end
      else decode_LabStatus rest r err
  end.

(** [json.Unmarshal(body, &r)] for [r] a [LabStatus].  A text that is not
    valid JSON leaves [r] as it is and gives a syntax error; a value that
    is no object gives a type error, [null] apart. *)
Definition json_Unmarshal (data : string) (r : LabStatus)
  : LabStatus * option json.error :=
  match json.parse data with
  | None => (r, Some json.SyntaxError)
  | Some (json.JObject members) => decode_LabStatus members r None
  | Some json.JNull => (r, None)
  | Some v => (r, Some (json.UnmarshalTypeError (json.kind v) EmptyString))
  end.

(** [fetchLabState]: the state pointer, the last-change pointer and the
    error, in the order the function returns them.  The status code of the
    response is not looked at, nor is the error of [json.Unmarshal].  The
    line the function prints before it returns a transport error is left
    out. *)
Definition fetchLabState (up : Upstream) : option bool * option Z * option error :=
  match up with
  | DoFails text => (None, None, Some (ErrDo text))
  | ReadFails text => (None, None, Some (ErrReadAll text))
  | Responds _ body =>
      let r := {| Status := EmptyString |} in
      let r := fst (json_Unmarshal body r) in
      if String.eqb (Status r) "open" then (Pointer true, None, None)
      else if String.eqb (Status r) "closed" then (Pointer false, None, None)
      else (None, None, Some (Errorf ("unknown state: " ++ Status r)))
  end.

(** Assignments through [spaceApiData.State]. *)
Definition set_Open (o : option bool) (s : State) : State :=
  {| State_Open := o;
     State_LastChange := State_LastChange s;
     State_TriggerPerson := State_TriggerPerson s;
     State_Message := State_Message s;
     State_Icon := State_Icon s |}.

Definition set_LastChange (t : Z) (s : State) : State :=
  {| State_Open := State_Open s;
     State_LastChange := t;
     State_TriggerPerson := State_TriggerPerson s;
     State_Message := State_Message s;
     State_Icon := State_Icon s |}.

(** The document with the object behind its [State] pointer replaced. *)
Definition with_State (s : State) (d : SpaceAPIv15) : SpaceAPIv15 :=
  {| SpaceAPIv15_APICompatibility := SpaceAPIv15_APICompatibility d;
     SpaceAPIv15_Space := SpaceAPIv15_Space d;
     SpaceAPIv15_Logo := SpaceAPIv15_Logo d;
     SpaceAPIv15_URL := SpaceAPIv15_URL d;
     SpaceAPIv15_Location := SpaceAPIv15_Location d;
     SpaceAPIv15_SpaceFed := SpaceAPIv15_SpaceFed d;
     SpaceAPIv15_Cam := SpaceAPIv15_Cam d;
     SpaceAPIv15_State := Some s;
     SpaceAPIv15_Events := SpaceAPIv15_Events d;
     SpaceAPIv15_Contact := SpaceAPIv15_Contact d;
     SpaceAPIv15_Sensors := SpaceAPIv15_Sensors d;
     SpaceAPIv15_Feeds := SpaceAPIv15_Feeds d;
     SpaceAPIv15_Links := SpaceAPIv15_Links d;
     SpaceAPIv15_Cache := SpaceAPIv15_Cache d;
     SpaceAPIv15_Projects := SpaceAPIv15_Projects d;
     SpaceAPIv15_RadioShow := SpaceAPIv15_RadioShow d |}.

(** How a call of the handler ends: it returns, having written [w] and left
    the shared document as [g]; or it panics on a nil [State] pointer, which
    the server answers by dropping the connection. *)
Inductive Outcome : Type :=
| Returned (w : http.ResponseWriter) (g : SpaceAPIv15)
| Panicked (g : SpaceAPIv15).

(** [handleSpaceApiV15(w, r)], with the network's answer [up] and the
    shared document [g] it reads and writes through [spaceApiData]. *)
Definition handleSpaceApiV15 (w : http.ResponseWriter) (r : http.Request)
    (up : Upstream) (g : SpaceAPIv15) : Outcome :=
  let '(labState, labStateLastChange, labStateError) := fetchLabState up in
  match labStateError with
  | Some e => Returned (http.Error w (Error e) http.StatusInternalServerError) g
  | None =>
      match SpaceAPIv15_State g with
      | None => Panicked g
      | Some st =>
          let st := set_Open labState st in
          let st :=
            match labStateLastChange with
            | Some t => set_LastChange t st
            | None => st
            end in
          let g := with_State st g in
          let p := json_Marshal g in
          let w := http.SetHeader "Content-Type" "application/json" w in
          let w := http.SetHeader "Access-Control-Allow-Origin" "*" w in
          Returned (http.Write p w) g
      end
  end.

Definition HandlerFunc : Type :=
  http.ResponseWriter -> http.Request -> Upstream -> SpaceAPIv15 -> Outcome.

(** The routes [main] registers on the default mux. *)
Definition DefaultServeMux : http.ServeMux HandlerFunc :=
  http.HandleFunc "/v15" handleSpaceApiV15
    (http.HandleFunc "/v14" handleSpaceApiV15 []).

(** One request handled alone: the handler registered for its path is
    called on a fresh writer, and [NotFound] when there is none.  The
    outcome holds what the handler called has written, which is what the
    server sends, short of the body when the method is [HEAD].  The call
    runs from its first line to its last on the shared document [g]:
    nothing in the program keeps two calls from overlapping on it, and
    what overlapping calls do is not described here. *)
Definition serve (r : http.Request) (up : Upstream) (g : SpaceAPIv15) : Outcome :=
  match http.Handler DefaultServeMux r with
  | Some h => h http.fresh r up g
  | None => Returned (http.NotFound http.fresh) g
  end.

Definition document_after (o : Outcome) : SpaceAPIv15 :=
  match o with Returned _ g | Panicked g => g end.

Definition response_of (o : Outcome) : option http.ResponseWriter :=
  match o with Returned w _ => Some w | Panicked _ => None end.

(** Requests served one after the other, no call overlapping the next,
    each with the answer the network gives to its fetch: the outcomes in
    order, and the document left. *)
Fixpoint serve_all (reqs : list (http.Request * Upstream)) (g : SpaceAPIv15)
  : list Outcome * SpaceAPIv15 :=
  match reqs with
  | [] => ([], g)
  | (r, up) :: rest =>
      let o := serve r up g in
      let (os, g') := serve_all rest (document_after o) in
      (o :: os, g')
  end.

(* ================================================================== *)
(** ** Notions the properties are stated with *)

(** [r.Status] as [fetchLabState] finds it after decoding [body]. *)
Definition decoded_status (body : string) : string :=
  Status (fst (json_Unmarshal body {| Status := EmptyString |})).

(** The answers of the upstream source the specification names. *)
Definition body_open : string := q "{'status':'open'}".
Definition body_closed : string := q "{'status':'closed'}".
Definition body_maybe : string := q "{'status':'maybe'}".
Definition body_html : string := "<html>".

(** A reader that hands back no more input than it was given. *)
Definition shrinks {A : Type} (rd : json.reader A) : Prop :=
  forall (d : N) (s : string) (x : A) (r : string),
    rd d s = Some (x, r) -> (String.length r <= String.length s)%nat.

(** The body the upstream contract describes: an object with the one
    member [status], holding [s]. *)
Definition status_body (s : string) : string := q "{'status':'" ++ s ++ q "'}".

(** A status written without escapes: printable ASCII, no double quote and
    no backslash. *)
Definition plain_char (c : ascii) : bool :=
  in_range 32 127 c && negb (Ascii.eqb c dquote) && negb (Ascii.eqb c backslash).

Fixpoint plain (s : string) : bool :=
  match s with
  | EmptyString => true
  | String c t => plain_char c && plain t
  end.

(** The template with [o] stored in [state.open]. *)
Definition template_with (o : option bool) : SpaceAPIv15 :=
  match SpaceAPIv15_State spaceApiData with
  | Some st => with_State (set_Open o st) spaceApiData
  | None => spaceApiData
  end.

(** The documents the shared variable can hold between two calls while
    the server runs. *)
Inductive reachable : SpaceAPIv15 -> Prop :=
| reachable_start : reachable spaceApiData
| reachable_serve (r : http.Request) (up : Upstream) (g : SpaceAPIv15) :
    reachable g -> reachable (document_after (serve r up g)).

(** The body of a response that carries a document: what the handler
    has written when it wrote status 200. *)
Definition emitted (o : Outcome) : option string :=
  match o with
  | Returned w _ =>
      match http.status w with
      | Some code => if code =? http.StatusOK then Some (http.body w) else None
      | None => None
      end
  | Panicked _ => None
  end.

(** Two states that differ at most in [Open] and [LastChange]. *)
Definition State_frame (s s' : State) : Prop :=
  State_TriggerPerson s' = State_TriggerPerson s
  /\ State_Message s' = State_Message s
  /\ State_Icon s' = State_Icon s.

(** Two documents that differ at most in [state.open] and
    [state.lastchange]. *)
Definition document_frame (g g' : SpaceAPIv15) : Prop :=
  SpaceAPIv15_APICompatibility g' = SpaceAPIv15_APICompatibility g
  /\ SpaceAPIv15_Space g' = SpaceAPIv15_Space g
  /\ SpaceAPIv15_Logo g' = SpaceAPIv15_Logo g
  /\ SpaceAPIv15_URL g' = SpaceAPIv15_URL g
  /\ SpaceAPIv15_Location g' = SpaceAPIv15_Location g
  /\ SpaceAPIv15_SpaceFed g' = SpaceAPIv15_SpaceFed g
  /\ SpaceAPIv15_Cam g' = SpaceAPIv15_Cam g
  /\ SpaceAPIv15_Events g' = SpaceAPIv15_Events g
  /\ SpaceAPIv15_Contact g' = SpaceAPIv15_Contact g
  /\ SpaceAPIv15_Sensors g' = SpaceAPIv15_Sensors g
  /\ SpaceAPIv15_Feeds g' = SpaceAPIv15_Feeds g
  /\ SpaceAPIv15_Links g' = SpaceAPIv15_Links g
  /\ SpaceAPIv15_Cache g' = SpaceAPIv15_Cache g
  /\ SpaceAPIv15_Projects g' = SpaceAPIv15_Projects g
  /\ SpaceAPIv15_RadioShow g' = SpaceAPIv15_RadioShow g
  /\ match SpaceAPIv15_State g, SpaceAPIv15_State g' with
     | Some s, Some s' => State_frame s s'
     | None, None => True
     | _, _ => False
     end.

(** A route that serves the document to no method but [GET]. *)
Definition accepts_only_GET (path : string) : Prop :=
  forall (r : http.Request) (up : Upstream) (g : SpaceAPIv15),
    http.Path r = path -> http.Method r <> "GET" ->
    emitted (serve r up g) = None.

Definition GET (path : string) : http.Request :=
  {| http.Method := "GET"; http.Path := path |}.

Definition POST (path : string) : http.Request :=
  {| http.Method := "POST"; http.Path := path |}.

(** The JSON document the struct tags give for the template holding [o]
    in [state.open], member by member. *)
Definition template_tree (o : option bool) : json.value :=
  json.JObject [
    ("api_compatibility", json.JArray [json.JString "14"; json.JString "15"]);
    ("space", json.JString "Metalab");
    ("logo", json.JString "https://metalab.at/wiki/images/9/93/Metalab.at.svg");
    ("url", json.JString "https://metalab.at");
    ("location", json.JObject [
       ("address",
        json.JString "Verein Metalab, Rathausstraße 6, 1010 Wien, Austria");
       ("lat", json.JNumber "48.2093723");
       ("lon", json.JNumber "16.356099");
       ("timezone", json.JString "Europe/Vienna");
       ("country_code", json.JString "AT") ]);
    ("spacefed", json.JObject [
       ("spacenet", json.JBool false);
       ("spacesaml", json.JBool false) ]);
    ("state", json.JObject [
       ("open", match o with
                | Some b => json.JBool b
                | None => json.JNull
                end) ]);
    ("contact", json.JObject [
       ("phone", json.JString "+43 720 002323");
       ("sip", json.JString "6382");
       ("mastodon", json.JString "@metalab@chaos.social") ]);
    ("links", json.JArray [
       json.JObject [
         ("name", json.JString "Metalab Wiki");
         ("url", json.JString "https://metalab.at/wiki") ] ]);
    ("projects", json.JArray [
       json.JString "https://github.com/metalab";
       json.JString "https://metalab.at/wiki/Projekte_Neu" ])
  ].

(** Whether [main] registered a route for the path of [r]. *)
Definition registered (r : http.Request) : bool :=
  String.eqb "/v14" (http.Path r) || String.eqb "/v15" (http.Path r).

(** What a request leaves in [state.open], given what was there: the
    handler stores the state pointer when the translator returns no error,
    and nothing is stored on an error or on a path without a route. *)
Definition observe (o : option bool) (req : http.Request * Upstream)
  : option bool :=
  if registered (fst req) then
    match fetchLabState (snd req) with
    | (labState, _, None) => labState
    | (_, _, Some _) => o
    end
  else o.

(** What the handler has written when it returns after marshalling [d]. *)
Definition document_response (d : SpaceAPIv15) : http.ResponseWriter :=
  {| http.header := [("Content-Type", "application/json");
                     ("Access-Control-Allow-Origin", "*")];
     http.status := Some 200;
     http.body := json_Marshal d |}.

(** What [http.Error] leaves on a fresh writer. *)
Definition error_response (code : Z) (text : string) : http.ResponseWriter :=
  {| http.header := [("Content-Type", "text/plain; charset=utf-8");
                     ("X-Content-Type-Options", "nosniff")];
     http.status := Some code;
     http.body := text ++ String newline EmptyString |}.

(** The call ended [o] answers a failure: the handler has written status
    500 and [text] as a line of plain text on its fresh writer, no
    document, and has left the shared document [g] as it found it. *)
Definition answers_500 (o : Outcome) (text : string) (g : SpaceAPIv15) : Prop :=
  o = Returned (error_response 500 text) g
  /\ emitted o = None
  /\ document_after o = g.

(** An object none of whose members gives the decoder a status: wherever
    the key folds to the field name, the value is no string. *)
Definition no_string_status (v : json.value) : Prop :=
  match v with
  | json.JObject members =>
      Forall (fun kv : string * json.value =>
                String.eqb (json.foldName (fst kv)) (json.foldName "status") = true ->
                match snd kv with json.JString _ => False | _ => True end)
             members
  | _ => True
  end.

(** A response of the upstream API in its earlier shape. *)
Definition body_earlier : string :=
  q "{'state':'on','last_changed':1700000000,'last_updated':1700000060}".

(** [l1] is [l2] with some elements left out. *)
Inductive subseq {A : Type} : list A -> list A -> Prop :=
| subseq_nil : subseq [] []
| subseq_skip (x : A) (l1 l2 : list A) : subseq l1 l2 -> subseq l1 (x :: l2)
| subseq_take (x : A) (l1 l2 : list A) : subseq l1 l2 -> subseq (x :: l1) (x :: l2).

(** The keys of the tags of [SpaceAPIv15], in declaration order. *)
Definition SpaceAPIv15_tags : list string :=
  ["api_compatibility"; "space"; "logo"; "url"; "location"; "spacefed"; "cam";
   "state"; "events"; "contact"; "sensors"; "feeds"; "links"; "cache";
   "projects"; "radio_show"].

(** No object anywhere in the tree has two members of the same key. *)
Fixpoint distinct_keys (v : json.value) : Prop :=
  match v with
  | json.JArray elems =>
      (fix all (l : list json.value) : Prop :=
         match l with
         | [] => True
         | x :: r => distinct_keys x /\ all r
         end) elems
  | json.JObject members =>
      NoDup (map fst members)
      /\ (fix all (l : list (string * json.value)) : Prop :=
            match l with
            | [] => True
            | kv :: r => distinct_keys (snd kv) /\ all r
            end) members
  | _ => True
  end.

(* ================================================================== *)
(** ** The decoder's fuel *)

Lemma skip_space_length (s : string) :
  (String.length (json.skip_space s) <= String.length s)%nat.
Proof.
  induction s as [| c t IH]; cbn [json.skip_space String.length].
  - lia.
  - destruct (json.is_space c); cbn [String.length]; lia.
Qed.

Lemma span_length (p : ascii -> bool) (s a b : string) :
  span p s = (a, b) -> (String.length b <= String.length s)%nat.
Proof.
  revert a b. induction s as [| c t IH]; intros a b; cbn [span].
  - intros [= <- <-]. cbn. lia.
  - destruct (p c).
    + destruct (span p t) as [a' b'] eqn:E. intros [= <- <-].
      specialize (IH a' b' eq_refl). cbn [String.length]. lia.
    + intros [= <- <-]. lia.
Qed.

Lemma drop_length (n : nat) (s : string) :
  (String.length (drop n s) <= String.length s)%nat.
Proof.
  revert s. induction n as [| n IH]; intros s; [cbn; lia |].
  destruct s as [| c t]; cbn [drop String.length]; [lia |].
  specialize (IH t). lia.
Qed.

Lemma scan_string_length (s raw r : string) :
  json.scan_string s = Some (raw, r) ->
  (String.length r <= String.length s)%nat.
Proof.
  remember (String.length s) as n eqn:Hn.
  revert s raw r Hn.
  induction n as [n IH] using (well_founded_induction lt_wf).
  intros s raw r -> H.
  destruct s as [| c t]; [discriminate |].
  cbn [json.scan_string] in H. cbn [String.length].
  destruct (Ascii.eqb c dquote); [injection H as _ <-; lia |].
  destruct (Ascii.eqb c backslash).
  - destruct t as [| e t1]; [discriminate |].
    destruct (json.is_simple_escape e).
    + destruct (json.scan_string t1) as [[raw' r'] |] eqn:E; [| discriminate].
      injection H as _ <-.
      pose proof (IH (String.length t1) ltac:(cbn [String.length]; lia)
                    t1 raw' r' eq_refl E).
      cbn [String.length]. lia.
    + destruct (Ascii.eqb e "u"); [| discriminate].
      destruct t1 as [| h1 [| h2 [| h3 [| h4 t2]]]]; try discriminate.
      destruct (_ && _); [| discriminate].
      destruct (json.scan_string t2) as [[raw' r'] |] eqn:E; [| discriminate].
      injection H as _ <-.
      pose proof (IH (String.length t2) ltac:(cbn [String.length]; lia)
                    t2 raw' r' eq_refl E).
      cbn [String.length]. lia.
  - destruct (byte_val c <? 32); [discriminate |].
    destruct (json.scan_string t) as [[raw' r'] |] eqn:E; [| discriminate].
    injection H as _ <-.
    pose proof (IH (String.length t) ltac:(cbn [String.length]; lia)
                    t raw' r' eq_refl E). lia.
Qed.

Lemma digits1_length (s ds r : string) :
  json.digits1 s = Some (ds, r) -> (String.length r <= String.length s)%nat.
Proof.
  unfold json.digits1. destruct (span json.is_digit s) as [a b] eqn:E.
  destruct (string_is_empty a); [discriminate |].
  intros [= <- <-]. exact (span_length _ _ _ _ E).
Qed.

Lemma scan_sign_length (s sg r : string) :
  json.scan_sign s = (sg, r) -> (String.length r <= String.length s)%nat.
Proof.
  destruct s as [| c t]; cbn [json.scan_sign].
  - intros [= <- <-]. lia.
  - destruct (Ascii.eqb c "-"); intros [= <- <-]; cbn [String.length]; lia.
Qed.

Lemma scan_int_length (s ip r : string) :
  json.scan_int s = Some (ip, r) -> (String.length r <= String.length s)%nat.
Proof.
  destruct s as [| d t]; cbn [json.scan_int String.length]; [discriminate |].
  destruct (Ascii.eqb d "0"); [intros [= <- <-]; lia |].
  destruct (in_range 49 57 d); [| discriminate].
  destruct (span json.is_digit t) as [ds rest] eqn:E. intros [= <- <-].
  apply span_length in E. lia.
Qed.

Lemma scan_frac_length (s fp r : string) :
  json.scan_frac s = Some (fp, r) -> (String.length r <= String.length s)%nat.
Proof.
  destruct s as [| c t]; cbn [json.scan_frac]; [intros [= <- <-]; lia |].
  destruct (Ascii.eqb c "."); [| intros [= <- <-]; lia].
  destruct (json.digits1 t) as [[ds rest] |] eqn:E; [| discriminate].
  intros [= <- <-]. apply digits1_length in E. cbn [String.length]. lia.
Qed.

Lemma scan_exp_sign_length (s sg r : string) :
  json.scan_exp_sign s = (sg, r) -> (String.length r <= String.length s)%nat.
Proof.
  destruct s as [| g t]; cbn [json.scan_exp_sign].
  - intros [= <- <-]. lia.
  - destruct (_ || _); intros [= <- <-]; cbn [String.length]; lia.
Qed.

Lemma scan_exp_length (s ep r : string) :
  json.scan_exp s = Some (ep, r) -> (String.length r <= String.length s)%nat.
Proof.
  destruct s as [| c t]; cbn [json.scan_exp]; [intros [= <- <-]; lia |].
  destruct (_ || _); [| intros [= <- <-]; lia].
  destruct (json.scan_exp_sign t) as [sg t1] eqn:E.
  apply scan_exp_sign_length in E.
  destruct (json.digits1 t1) as [[ds rest] |] eqn:D; [| discriminate].
  intros [= <- <-]. apply digits1_length in D. cbn [String.length]. lia.
Qed.

Lemma scan_number_length (s lit r : string) :
  json.scan_number s = Some (lit, r) ->
  (String.length r <= String.length s)%nat.
Proof.
  unfold json.scan_number.
  destruct (json.scan_sign s) as [sg s1] eqn:E1.
  destruct (json.scan_int s1) as [[ip s2] |] eqn:E2; [| discriminate].
  destruct (json.scan_frac s2) as [[fp s3] |] eqn:E3; [| discriminate].
  destruct (json.scan_exp s3) as [[ep s4] |] eqn:E4; [| discriminate].
  intros [= <- <-].
  apply scan_sign_length in E1. apply scan_int_length in E2.
  apply scan_frac_length in E3. apply scan_exp_length in E4. lia.
Qed.

(** Collects what is known on the lengths of the inputs at hand. *)
Ltac lengths :=
  repeat match goal with
         | HS : shrinks ?rd, E : ?rd _ _ = Some _ |- _ => apply HS in E
         | E : json.scan_string _ = Some _ |- _ => apply scan_string_length in E
         | E : json.scan_number _ = Some _ |- _ => apply scan_number_length in E
         | E : json.skip_space ?t = String _ _ |- _ =>
             let L := fresh "L" in
             pose proof (skip_space_length t) as L; rewrite E in L; clear E
         end;
  repeat match goal with
         | |- context [String.length (json.skip_space ?t)] =>
             lazymatch goal with
             | _ : (String.length (json.skip_space t) <= String.length t)%nat |- _ =>
                 fail
             | _ => pose proof (skip_space_length t)
             end
         | _ : context [String.length (json.skip_space ?t)] |- _ =>
             lazymatch goal with
             | _ : (String.length (json.skip_space t) <= String.length t)%nat |- _ =>
                 fail
             | _ => pose proof (skip_space_length t)
             end
         end;
  cbn [String.length] in *; lia.

Lemma value_step_shrinks (rm : json.reader (list (string * json.value)))
    (re : json.reader (list json.value)) :
  shrinks rm -> shrinks re -> shrinks (json.value_step rm re).
Proof.
  intros Hm He d s x r. unfold json.value_step.
  destruct s as [| c t]; [discriminate |].
  destruct (Ascii.eqb c "{").
  { destruct (_ <=? _)%N; [discriminate |].
    destruct (json.skip_space t) as [| c' r0] eqn:E; [discriminate |].
    destruct (Ascii.eqb c' "}"); [intros [= _ <-]; lengths |].
    destruct (rm _ _) as [[m r'] |] eqn:Em; [| discriminate].
    intros [= _ <-]. lengths. }
  destruct (Ascii.eqb c "[").
  { destruct (_ <=? _)%N; [discriminate |].
    destruct (json.skip_space t) as [| c' r0] eqn:E; [discriminate |].
    destruct (Ascii.eqb c' "]"); [intros [= _ <-]; lengths |].
    destruct (re _ _) as [[l r'] |] eqn:Ee; [| discriminate].
    intros [= _ <-]. lengths. }
  destruct (Ascii.eqb c dquote).
  { destruct (json.scan_string t) as [[raw r'] |] eqn:Es; [| discriminate].
    intros [= _ <-]. lengths. }
  destruct (_ || _).
  { destruct (json.scan_number _) as [[lit r'] |] eqn:En; [| discriminate].
    intros [= _ <-]. lengths. }
  destruct (prefix "true" _);
    [intros [= _ <-]; exact (drop_length 4 (String c t)) |].
  destruct (prefix "false" _);
    [intros [= _ <-]; exact (drop_length 5 (String c t)) |].
  destruct (prefix "null" _); [| discriminate].
  intros [= _ <-]. exact (drop_length 4 (String c t)).
Qed.

Lemma members_step_shrinks (rv : json.reader json.value)
    (rm : json.reader (list (string * json.value))) :
  shrinks rv -> shrinks rm -> shrinks (json.members_step rv rm).
Proof.
  intros Hv Hm d s x r. unfold json.members_step.
  destruct s as [| c t]; [discriminate |].
  destruct (Ascii.eqb c dquote); [| discriminate].
  destruct (json.scan_string t) as [[raw r0] |] eqn:Es; [| discriminate].
  destruct (json.skip_space r0) as [| colon r1] eqn:E0; [discriminate |].
  destruct (Ascii.eqb colon ":"); [| discriminate].
  destruct (rv _ _) as [[v r2] |] eqn:Ev; [| discriminate].
  destruct (json.skip_space r2) as [| sep r3] eqn:E2; [discriminate |].
  destruct (Ascii.eqb sep ",").
  - destruct (rm _ _) as [[m r4] |] eqn:Em; [| discriminate].
    intros [= _ <-]. lengths.
  - destruct (Ascii.eqb sep "}"); [| discriminate].
    intros [= _ <-]. lengths.
Qed.

Lemma elements_step_shrinks (rv : json.reader json.value)
    (re : json.reader (list json.value)) :
  shrinks rv -> shrinks re -> shrinks (json.elements_step rv re).
Proof.
  intros Hv He d s x r. unfold json.elements_step.
  destruct (rv _ _) as [[v r0] |] eqn:Ev; [| discriminate].
  destruct (json.skip_space r0) as [| sep r1] eqn:E0; [discriminate |].
  destruct (Ascii.eqb sep ",").
  - destruct (re _ _) as [[l r2] |] eqn:Ee; [| discriminate].
    intros [= _ <-]. lengths.
  - destruct (Ascii.eqb sep "]"); [| discriminate].
    intros [= _ <-]. lengths.
Qed.

Lemma parse_shrinks (f : nat) :
  shrinks (json.parse_value f) /\ shrinks (json.parse_members f)
  /\ shrinks (json.parse_elements f).
Proof.
  induction f as [| f (Hv & Hm & He)].
  - repeat split; intros d s x r; discriminate.
  - cbn [json.parse_value json.parse_members json.parse_elements].
    split; [apply value_step_shrinks; assumption |].
    split; [apply members_step_shrinks | apply elements_step_shrinks]; assumption.
Qed.

Lemma value_step_ext (rm rm' : json.reader (list (string * json.value)))
    (re re' : json.reader (list json.value)) (d : N) (s : string) :
  (forall d' s', (String.length s' < String.length s)%nat -> rm d' s' = rm' d' s') ->
  (forall d' s', (String.length s' < String.length s)%nat -> re d' s' = re' d' s') ->
  json.value_step rm re d s = json.value_step rm' re' d s.
Proof.
  intros Hm He. unfold json.value_step.
  destruct s as [| c t]; [reflexivity |].
  destruct (Ascii.eqb c "{").
  { destruct (_ <=? _)%N; [reflexivity |].
    destruct (json.skip_space t) as [| c' r0] eqn:E; [reflexivity |].
    destruct (Ascii.eqb c' "}"); [reflexivity |].
    rewrite Hm by lengths. reflexivity. }
  destruct (Ascii.eqb c "["); [| reflexivity].
  destruct (_ <=? _)%N; [reflexivity |].
  destruct (json.skip_space t) as [| c' r0] eqn:E; [reflexivity |].
  destruct (Ascii.eqb c' "]"); [reflexivity |].
  rewrite He by lengths. reflexivity.
Qed.

Lemma members_step_ext (rv rv' : json.reader json.value)
    (rm rm' : json.reader (list (string * json.value))) (d : N) (s : string) :
  shrinks rv' ->
  (forall d' s', (String.length s' <= String.length s)%nat -> rv d' s' = rv' d' s') ->
  (forall d' s', (String.length s' < String.length s)%nat -> rm d' s' = rm' d' s') ->
  json.members_step rv rm d s = json.members_step rv' rm' d s.
Proof.
  intros Hs Hv Hm. unfold json.members_step.
  destruct s as [| c t]; [reflexivity |].
  destruct (Ascii.eqb c dquote); [| reflexivity].
  destruct (json.scan_string t) as [[raw r0] |] eqn:Es; [| reflexivity].
  destruct (json.skip_space r0) as [| colon r1] eqn:E0; [reflexivity |].
  destruct (Ascii.eqb colon ":"); [| reflexivity].
  rewrite Hv by lengths.
  destruct (rv' _ _) as [[v r2] |] eqn:Ev; [| reflexivity].
  destruct (json.skip_space r2) as [| sep r3] eqn:E2; [reflexivity |].
  destruct (Ascii.eqb sep ","); [| reflexivity].
  rewrite Hm by lengths. reflexivity.
Qed.

Lemma elements_step_ext (rv rv' : json.reader json.value)
    (re re' : json.reader (list json.value)) (d : N) (s : string) :
  shrinks rv' ->
  (forall d' s', (String.length s' <= String.length s)%nat -> rv d' s' = rv' d' s') ->
  (forall d' s', (String.length s' < String.length s)%nat -> re d' s' = re' d' s') ->
  json.elements_step rv re d s = json.elements_step rv' re' d s.
Proof.
  intros Hs Hv He. unfold json.elements_step.
  rewrite Hv by lia.
  destruct (rv' _ _) as [[v r0] |] eqn:Ev; [| reflexivity].
  destruct (json.skip_space r0) as [| sep r1] eqn:E0; [reflexivity |].
  destruct (Ascii.eqb sep ","); [| reflexivity].
  rewrite He by lengths. reflexivity.
Qed.

(** With fuel above twice the length of the input, more fuel reads the
    same. *)
Lemma parse_stable (f : nat) :
  forall f' : nat, (f <= f')%nat ->
    (forall d s, (2 * String.length s + 1 <= f)%nat ->
                 json.parse_value f' d s = json.parse_value f d s)
    /\ (forall d s, (2 * String.length s + 2 <= f)%nat ->
                    json.parse_members f' d s = json.parse_members f d s)
    /\ (forall d s, (2 * String.length s + 2 <= f)%nat ->
                    json.parse_elements f' d s = json.parse_elements f d s).
Proof.
  induction f as [| f IH]; intros f' Hle.
  - repeat split; intros; lia.
  - destruct f' as [| f'']; [lia |].
    destruct (IH f'' ltac:(lia)) as (IHv & IHm & IHe).
    destruct (parse_shrinks f) as (Sv & _ & _).
    cbn [json.parse_value json.parse_members json.parse_elements].
    split; [| split]; intros d s Hs.
    + apply value_step_ext; intros d' s' L; [apply IHm | apply IHe]; lia.
    + apply members_step_ext;
        [exact Sv | intros d' s' L; apply IHv; lia | intros d' s' L; apply IHm; lia].
    + apply elements_step_ext;
        [exact Sv | intros d' s' L; apply IHv; lia | intros d' s' L; apply IHe; lia].
Qed.

(** The fuel [json.parse] gives its reader is enough: with any larger
    amount the reader returns the same. *)
Lemma parse_fuel_enough (data : string) (f : nat) :
  (2 * String.length data + 2 <= f)%nat ->
  json.parse_value f 0%N (json.skip_space data)
  = json.parse_value (2 * String.length data + 2) 0%N (json.skip_space data).
Proof.
  intros Hf.
  apply (parse_stable (2 * String.length data + 2) f Hf).
  pose proof (skip_space_length data). lia.
Qed.

(* ================================================================== *)
(** ** The translator *)

Lemma decoded_status_invalid (body : string) :
  json.parse body = None -> decoded_status body = EmptyString.
Proof.
  intros H. unfold decoded_status, json_Unmarshal. rewrite H. reflexivity.
Qed.

(** The upstream contract's one-member object: the decoder stores its
    string. *)
Lemma decoded_status_object (body s : string) :
  json.parse body = Some (json.JObject [("status", json.JString s)]) ->
  decoded_status body = s.
Proof.
  intros H. unfold decoded_status, json_Unmarshal. rewrite H. reflexivity.
Qed.

Lemma plain_char_scan (c : ascii) :
  plain_char c = true ->
  Ascii.eqb c dquote = false /\ Ascii.eqb c backslash = false
  /\ (byte_val c <? 32) = false /\ (byte_val c <? 128) = true.
Proof.
  unfold plain_char, in_range. intros H.
  apply andb_prop in H as [H Hb]. apply andb_prop in H as [H Hq].
  apply andb_prop in H as [Hlo Hhi].
  apply negb_true_iff in Hb, Hq. apply Z.leb_le in Hlo, Hhi.
  repeat split; try assumption.
  - apply Z.ltb_ge. exact Hlo.
  - apply Z.ltb_lt. lia.
Qed.

Lemma scan_string_plain (s rest : string) :
  plain s = true ->
  json.scan_string (s ++ String dquote rest) = Some (s, rest).
Proof.
  induction s as [| c t IH]; intros H.
  - reflexivity.
  - cbn [plain] in H. apply andb_prop in H as [Hc Ht].
    destruct (plain_char_scan c Hc) as (Hq & Hb & Hlo & _).
    cbn [append json.scan_string]. rewrite Hq, Hb, Hlo, (IH Ht). reflexivity.
Qed.

Lemma unquote_plain (s : string) : plain s = true -> json.unquote s = s.
Proof.
  unfold json.unquote. induction s as [| c t IH]; intros H.
  - reflexivity.
  - cbn [plain] in H. apply andb_prop in H as [Hc Ht].
    destruct (plain_char_scan c Hc) as (_ & Hb & _ & Hhi).
    cbn [String.length json.unquote_aux]. rewrite Hb, Hhi, (IH Ht). reflexivity.
Qed.

Lemma parse_status_body (s : string) :
  plain s = true ->
  json.parse (status_body s) = Some (json.JObject [("status", json.JString s)]).
Proof.
  intros H. unfold json.parse.
  assert (F : exists f, (2 * String.length (status_body s) + 2)%nat = S (S (S f))).
  { exists (2 * String.length (status_body s) - 1)%nat.
    unfold status_body. cbn [q append String.length]. lia. }
  destruct F as [f ->].
  change (json.skip_space (status_body s))
    with (String "{" (String dquote
            ("status" ++ String dquote (String ":" (String dquote
               (s ++ String dquote "}")))))).
  cbn -[json.scan_string json.unquote append].
  change (json.scan_string
            ("status" ++ String dquote (String ":" (String dquote
               (s ++ String dquote "}")))))
    with (Some ("status", String ":" (String dquote (s ++ String dquote "}")))).
  cbn -[json.scan_string json.unquote append].
  rewrite (scan_string_plain s "}" H).
  cbn -[json.unquote]. rewrite (unquote_plain s H). reflexivity.
Qed.

(** A body of the contract's shape decodes to the status it holds. *)
Lemma decoded_status_body (s : string) :
  plain s = true -> decoded_status (status_body s) = s.
Proof.
  intros H. apply decoded_status_object, parse_status_body, H.
Qed.

Lemma fetchLabState_Responds (code : Z) (body : string) :
  fetchLabState (Responds code body) =
  if String.eqb (decoded_status body) "open" then (Some true, None, None)
  else if String.eqb (decoded_status body) "closed" then (Some false, None, None)
  else (None, None, Some (Errorf ("unknown state: " ++ decoded_status body))).
Proof. reflexivity. Qed.

(** C1. Whatever status code and body the upstream source answers with:
    when the decoded status field is the literal [open] the translator
    returns [open = true] and no timestamp; when it is [closed] it returns
    [open = false] and no timestamp; on every other value it returns no
    state and the error [unknown state: <value>], and so it does, with the
    empty value, on a field left empty and on a body that is not valid
    JSON.  The decoded status field of a body [{"status":"<s>"}] is [s],
    for every [s] written without escapes. *)
Theorem fetchLabState_mapping (code : Z) (body : string) :
  (decoded_status body = "open" ->
   fetchLabState (Responds code body) = (Some true, None, None))
  /\ (decoded_status body = "closed" ->
      fetchLabState (Responds code body) = (Some false, None, None))
  /\ (decoded_status body <> "open" -> decoded_status body <> "closed" ->
      fetchLabState (Responds code body)
      = (None, None, Some (Errorf ("unknown state: " ++ decoded_status body))))
  /\ (decoded_status body = EmptyString \/ json.parse body = None ->
      fetchLabState (Responds code body)
      = (None, None, Some (Errorf "unknown state: ")))
  /\ (forall s : string,
        plain s = true -> body = status_body s -> decoded_status body = s).
Proof.
  rewrite fetchLabState_Responds.
  split; [| split; [| split; [| split]]].
  - intros ->. reflexivity.
  - intros ->. reflexivity.
  - intros Ho Hc.
    apply String.eqb_neq in Ho, Hc. rewrite Ho, Hc. reflexivity.
  - intros [H | H]; [| apply decoded_status_invalid in H]; rewrite H; reflexivity.
  - intros s Hs ->. apply decoded_status_body, Hs.
Qed.

Lemma fetchLabState_mapping_witness :
  fetchLabState (Responds 200 body_open) = (Some true, None, None)
  /\ fetchLabState (Responds 200 body_closed) = (Some false, None, None)
  /\ fetchLabState (Responds 200 body_maybe)
     = (None, None, Some (Errorf "unknown state: maybe"))
  /\ fetchLabState (Responds 200 body_html)
     = (None, None, Some (Errorf "unknown state: ")).
Proof.
  split; [| split; [| split]].
  - apply (proj1 (fetchLabState_mapping 200 body_open)).
    vm_compute. reflexivity.
  - apply (proj1 (proj2 (fetchLabState_mapping 200 body_closed))).
    vm_compute. reflexivity.
  - apply (proj1 (proj2 (proj2 (fetchLabState_mapping 200 body_maybe)))).
    + vm_compute. discriminate.
    + vm_compute. discriminate.
  - apply (proj1 (proj2 (proj2 (proj2 (fetchLabState_mapping 200 body_html))))).
    right. vm_compute. reflexivity.
Defined.

(** C10. Every call of [fetchLabState] returns either a state and no
    error, or an error and no state; the last-change pointer it returns is
    nil on every path, so the handler never takes the branch that stores
    it and [state.lastchange] is what it was before the call. *)
Theorem fetchLabState_state_xor_error (up : Upstream) :
  let '(labState, labStateLastChange, labStateError) := fetchLabState up in
  labStateLastChange = None
  /\ ((labState <> None /\ labStateError = None)
      \/ (labState = None /\ labStateError <> None))
  /\ forall (w : http.ResponseWriter) (r : http.Request) (g : SpaceAPIv15),
       option_map State_LastChange
         (SpaceAPIv15_State (document_after (handleSpaceApiV15 w r up g)))
       = option_map State_LastChange (SpaceAPIv15_State g).
Proof.
  unfold handleSpaceApiV15.
  destruct up as [text | text | code body]; cbn [fetchLabState].
  1, 2: split; [reflexivity | split; [right; split; [reflexivity | discriminate] |]];
        intros; reflexivity.
  destruct (String.eqb _ "open"); [| destruct (String.eqb _ "closed")].
  1, 2: split; [reflexivity | split; [left; split; [discriminate | reflexivity] |]];
        intros w r g; destruct (SpaceAPIv15_State g) eqn:E; cbn;
        [reflexivity | rewrite E; reflexivity].
  split; [reflexivity | split; [right; split; [reflexivity | discriminate] |]].
  intros; reflexivity.
Qed.

(* ================================================================== *)
(** ** The handler, case by case *)

Lemma fetchLabState_cases (up : Upstream) :
  (exists b, fetchLabState up = (Some b, None, None))
  \/ (exists e, fetchLabState up = (None, None, Some e)).
Proof.
  destruct up as [text | text | code body]; cbn [fetchLabState].
  1, 2: right; eexists; reflexivity.
  destruct (String.eqb _ "open"); [left; eexists; reflexivity |].
  destruct (String.eqb _ "closed"); [left | right]; eexists; reflexivity.
Qed.

Lemma handle_error (w : http.ResponseWriter) (r : http.Request)
    (up : Upstream) (g : SpaceAPIv15) (e : error) :
  snd (fetchLabState up) = Some e ->
  handleSpaceApiV15 w r up g
  = Returned (http.Error w (Error e) http.StatusInternalServerError) g.
Proof.
  unfold handleSpaceApiV15. destruct (fetchLabState up) as [[s t] e'].
  cbn [snd]. intros ->. reflexivity.
Qed.

Lemma handle_ok (w : http.ResponseWriter) (r : http.Request)
    (up : Upstream) (g : SpaceAPIv15) (b : bool) (st : State) :
  fetchLabState up = (Some b, None, None) ->
  SpaceAPIv15_State g = Some st ->
  handleSpaceApiV15 w r up g
  = Returned
      (http.Write (json_Marshal (with_State (set_Open (Some b) st) g))
         (http.SetHeader "Access-Control-Allow-Origin" "*"
            (http.SetHeader "Content-Type" "application/json" w)))
      (with_State (set_Open (Some b) st) g).
Proof.
  unfold handleSpaceApiV15. intros -> ->. reflexivity.
Qed.

Lemma handle_nil (w : http.ResponseWriter) (r : http.Request)
    (up : Upstream) (g : SpaceAPIv15) (b : bool) :
  fetchLabState up = (Some b, None, None) ->
  SpaceAPIv15_State g = None ->
  handleSpaceApiV15 w r up g = Panicked g.
Proof.
  unfold handleSpaceApiV15. intros -> ->. reflexivity.
Qed.

Lemma serve_route (r : http.Request) (up : Upstream) (g : SpaceAPIv15) :
  serve r up g
  = if String.eqb "/v14" (http.Path r) || String.eqb "/v15" (http.Path r)
    then handleSpaceApiV15 http.fresh r up g
    else Returned (http.NotFound http.fresh) g.
Proof.
  unfold serve, DefaultServeMux, http.HandleFunc. cbn [app http.Handler].
  destruct (String.eqb "/v14" (http.Path r)); [reflexivity |].
  destruct (String.eqb "/v15" (http.Path r)); reflexivity.
Qed.

Lemma emitted_document (p : string) (g : SpaceAPIv15) :
  emitted
    (Returned
       (http.Write p
          (http.SetHeader "Access-Control-Allow-Origin" "*"
             (http.SetHeader "Content-Type" "application/json" http.fresh))) g)
  = Some p.
Proof. reflexivity. Qed.

Lemma emitted_error (text : string) (g : SpaceAPIv15) :
  emitted (Returned (http.Error http.fresh text http.StatusInternalServerError) g)
  = None.
Proof. reflexivity. Qed.

Lemma set_Open_twice (o o' : option bool) (st : State) :
  set_Open o (set_Open o' st) = set_Open o st.
Proof. reflexivity. Qed.

Lemma with_State_twice (s s' : State) (g : SpaceAPIv15) :
  with_State s (with_State s' g) = with_State s g.
Proof. reflexivity. Qed.

(** C2. Whenever the fetch or the translation fails, the handler
    answers on its fresh writer with status 500 and the error's text as a
    line of plain text, emits no document, and leaves the shared document
    exactly as it was: so it does when the request to the upstream source
    fails, when the reading of its response fails, and when the status
    decoded from the response is neither [open] nor [closed]; these are
    the cases in which [fetchLabState] returns an error. *)
Theorem handler_failure_500 (r : http.Request) (g : SpaceAPIv15) :
  (forall text : string,
      answers_500 (handleSpaceApiV15 http.fresh r (DoFails text) g) text g)
  /\ (forall text : string,
        answers_500 (handleSpaceApiV15 http.fresh r (ReadFails text) g) text g)
  /\ (forall (code : Z) (body : string),
        decoded_status body <> "open" -> decoded_status body <> "closed" ->
        answers_500 (handleSpaceApiV15 http.fresh r (Responds code body) g)
          ("unknown state: " ++ decoded_status body) g)
  /\ (forall (up : Upstream) (e : error),
        snd (fetchLabState up) = Some e ->
        answers_500 (handleSpaceApiV15 http.fresh r up g) (Error e) g).
Proof.
  assert (H : forall (up : Upstream) (e : error),
             snd (fetchLabState up) = Some e ->
             answers_500 (handleSpaceApiV15 http.fresh r up g) (Error e) g).
  { intros up e He. unfold answers_500.
    rewrite (handle_error _ _ _ _ _ He). repeat split. }
  split; [| split; [| split]].
  - intros text. apply (H (DoFails text) (ErrDo text)). reflexivity.
  - intros text. apply (H (ReadFails text) (ErrReadAll text)). reflexivity.
  - intros code body Ho Hc.
    apply (H (Responds code body)
             (Errorf ("unknown state: " ++ decoded_status body))).
    rewrite fetchLabState_Responds.
    apply String.eqb_neq in Ho, Hc. rewrite Ho, Hc. reflexivity.
  - exact H.
Qed.

Lemma handler_failure_500_witness :
  answers_500
    (handleSpaceApiV15 http.fresh (GET "/v15") (DoFails "connection refused")
       spaceApiData)
    "connection refused" spaceApiData
  /\ answers_500
       (handleSpaceApiV15 http.fresh (GET "/v15") (ReadFails "unexpected EOF")
          spaceApiData)
       "unexpected EOF" spaceApiData
  /\ answers_500
       (handleSpaceApiV15 http.fresh (GET "/v15") (Responds 200 body_maybe)
          spaceApiData)
       "unknown state: maybe" spaceApiData
  /\ answers_500
       (handleSpaceApiV15 http.fresh (GET "/v15") (Responds 200 body_html)
          (template_with (Some true)))
       "unknown state: " (template_with (Some true)).
Proof.
  split; [| split; [| split]].
  - apply (proj1 (handler_failure_500 (GET "/v15") spaceApiData)).
  - apply (proj1 (proj2 (handler_failure_500 (GET "/v15") spaceApiData))).
  - apply (proj1 (proj2 (proj2 (handler_failure_500 (GET "/v15") spaceApiData)))
             200 body_maybe).
    + vm_compute. discriminate.
    + vm_compute. discriminate.
  - apply (proj2 (proj2 (proj2 (handler_failure_500 (GET "/v15")
                                  (template_with (Some true)))))
             (Responds 200 body_html) (Errorf "unknown state: ")).
    vm_compute. reflexivity.
Defined.

(** C7. Two calls of the handler in a row that get the same answer from
    the upstream source write the same response, byte for byte, whatever
    the two requests are and whatever the shared document held before the
    first; and the second call leaves the document as the first left it. *)
Theorem handler_idempotent (w : http.ResponseWriter) (r1 r2 : http.Request)
    (up : Upstream) (g : SpaceAPIv15) :
  let first := handleSpaceApiV15 w r1 up g in
  let second := handleSpaceApiV15 w r2 up (document_after first) in
  response_of second = response_of first
  /\ document_after second = document_after first.
Proof.
  destruct (fetchLabState_cases up) as [[b Hb] | [e He]].
  - destruct (SpaceAPIv15_State g) as [st |] eqn:Hst.
    + cbv zeta. rewrite (handle_ok w r1 up g b st Hb Hst).
      cbn [document_after].
      rewrite (handle_ok w r2 up (with_State (set_Open (Some b) st) g) b
                 (set_Open (Some b) st) Hb eq_refl).
      rewrite set_Open_twice, with_State_twice. split; reflexivity.
    + cbv zeta. rewrite (handle_nil w r1 up g b Hb Hst).
      cbn [document_after]. rewrite (handle_nil w r2 up g b Hb Hst).
      split; reflexivity.
  - assert (H : snd (fetchLabState up) = Some e) by (rewrite He; reflexivity).
    cbv zeta. rewrite (handle_error w r1 up g e H). cbn [document_after].
    rewrite (handle_error w r2 up g e H). split; reflexivity.
Qed.

(* ================================================================== *)
(** ** What a request may change *)

Lemma document_frame_refl (g : SpaceAPIv15) : document_frame g g.
Proof.
  unfold document_frame, State_frame.
  destruct (SpaceAPIv15_State g); repeat split.
Qed.

Lemma document_frame_trans (g1 g2 g3 : SpaceAPIv15) :
  document_frame g1 g2 -> document_frame g2 g3 -> document_frame g1 g3.
Proof.
  unfold document_frame, State_frame.
  intros H12 H23.
  destruct (SpaceAPIv15_State g1), (SpaceAPIv15_State g2), (SpaceAPIv15_State g3);
    repeat match goal with H : _ /\ _ |- _ => destruct H end;
    try contradiction;
    repeat split; congruence.
Qed.

Lemma document_frame_handle (w : http.ResponseWriter) (r : http.Request)
    (up : Upstream) (g : SpaceAPIv15) :
  document_frame g (document_after (handleSpaceApiV15 w r up g)).
Proof.
  destruct (fetchLabState_cases up) as [[b Hb] | [e He]].
  - destruct (SpaceAPIv15_State g) as [st |] eqn:Hst.
    + rewrite (handle_ok w r up g b st Hb Hst). cbn [document_after].
      unfold document_frame, State_frame. rewrite Hst. cbn. repeat split.
    + rewrite (handle_nil w r up g b Hb Hst). apply document_frame_refl.
  - rewrite (handle_error w r up g e) by (rewrite He; reflexivity).
    apply document_frame_refl.
Qed.

Lemma document_frame_serve (r : http.Request) (up : Upstream) (g : SpaceAPIv15) :
  document_frame g (document_after (serve r up g)).
Proof.
  rewrite serve_route.
  destruct (_ || _); [apply document_frame_handle | apply document_frame_refl].
Qed.

(** C8. Through any sequence of requests, whatever the upstream source
    answers to each, every field of the shared document other than
    [state.open] and [state.lastchange] keeps the value it had: all the
    other top-level fields, with every list in its order, and inside the
    state the trigger person, the message and the icon. *)
Theorem only_state_open_lastchange_mutated
    (reqs : list (http.Request * Upstream)) (g : SpaceAPIv15) :
  document_frame g (snd (serve_all reqs g)).
Proof.
  revert g. induction reqs as [| [r up] rest IH]; intros g.
  - apply document_frame_refl.
  - cbn [serve_all].
    specialize (IH (document_after (serve r up g))).
    destruct (serve_all rest (document_after (serve r up g))) as [os g'].
    cbn [snd] in *.
    eapply document_frame_trans; [apply document_frame_serve | exact IH].
Qed.

(* ================================================================== *)
(** ** The routes *)

(** C9, as amended. The routes [/v14] and [/v15] answer alike: whatever
    the request's method, the upstream answer and the shared document, a
    request to the one and the same request to the other end in the same
    response and the same document.  And they do not take [GET] only: a
    [POST] to either route is handled as a [GET] to it is. *)
Theorem routes_identical_POST_accepted (m : string) (up : Upstream)
    (g : SpaceAPIv15) :
  serve {| http.Method := m; http.Path := "/v14" |} up g
  = serve {| http.Method := m; http.Path := "/v15" |} up g
  /\ serve (POST "/v14") up g = serve (GET "/v14") up g
  /\ serve (POST "/v15") up g = serve (GET "/v15") up g.
Proof.
  rewrite !serve_route. cbn [http.Path POST GET String.eqb Ascii.eqb Bool.eqb orb].
  unfold handleSpaceApiV15.
  destruct (fetchLabState up) as [[labState labStateLastChange] [e |]];
    repeat split.
Qed.

(** C9, the part that fails: a [POST] to [/v15] is served the document
    just as a [GET] is, so the route does not accept [GET] only. *)
Lemma routes_serve_POST :
  http.Method (POST "/v15") <> "GET"
  /\ emitted (serve (POST "/v15") (Responds 200 body_open) spaceApiData)
     = emitted (serve (GET "/v15") (Responds 200 body_open) spaceApiData)
  /\ emitted (serve (POST "/v15") (Responds 200 body_open) spaceApiData)
     = Some (json_Marshal (template_with (Some true)))
  /\ ~ accepts_only_GET "/v15".
Proof.
  assert (E : emitted (serve (POST "/v15") (Responds 200 body_open) spaceApiData)
              = Some (json_Marshal (template_with (Some true))))
    by (vm_compute; reflexivity).
  split; [discriminate |]. split; [reflexivity |]. split; [exact E |].
  intros H.
  specialize (H (POST "/v15") (Responds 200 body_open) spaceApiData
                eq_refl ltac:(discriminate)).
  rewrite E in H. discriminate.
Qed.

(* ================================================================== *)
(** ** The shape of the document *)

Lemma lookup_app (k : string) (a b : list (string * json.value)) :
  json.lookup k (a ++ b)
  = match json.lookup k a with Some v => Some v | None => json.lookup k b end.
Proof.
  induction a as [| [k' v] a IH]; [reflexivity |].
  cbn [app json.lookup]. destruct (String.eqb k k'); [reflexivity | exact IH].
Qed.

Lemma lookup_always (k k' : string) (v : json.value) :
  json.lookup k (tag.always k' v) = if String.eqb k k' then Some v else None.
Proof. reflexivity. Qed.

Lemma lookup_omitempty (k k' : string) (empty : bool) (v : json.value) :
  json.lookup k (tag.omitempty empty k' v)
  = if String.eqb k k' then (if empty then None else Some v) else None.
Proof.
  unfold tag.omitempty. destruct empty; cbn [json.lookup];
    destruct (String.eqb k k'); reflexivity.
Qed.

(** Looks a constant key up in the member list of an encoded struct. *)
Ltac lookup_key :=
  unfold tag.omit_string, tag.omit_int64, tag.omit_float, tag.omit_ptr,
    tag.omit_slice;
  repeat rewrite lookup_app;
  repeat rewrite lookup_always;
  repeat rewrite lookup_omitempty;
  cbv [String.eqb Ascii.eqb Bool.eqb].


Lemma State_member_lastchange (s : State) :
  json.member "lastchange" (encode.State s)
  = if State_LastChange s =? 0 then None
    else Some (json.JNumber (FormatInt (State_LastChange s))).
Proof.
  unfold encode.State, json.member. lookup_key.
  destruct (State_LastChange s =? 0); reflexivity.
Qed.

Lemma document_member_state (d : SpaceAPIv15) :
  json.member "state" (encode.SpaceAPIv15 d)
  = option_map encode.State (SpaceAPIv15_State d).
Proof.
  unfold encode.SpaceAPIv15, json.member. lookup_key.
  destruct (SpaceAPIv15_State d); reflexivity.
Qed.

Lemma document_member_space (d : SpaceAPIv15) :
  json.member "space" (encode.SpaceAPIv15 d)
  = Some (json.JString (SpaceAPIv15_Space d)).
Proof. reflexivity. Qed.

Lemma document_member_cam (d : SpaceAPIv15) :
  json.member "cam" (encode.SpaceAPIv15 d)
  = if Nat.eqb (len (SpaceAPIv15_Cam d)) 0 then None
    else Some (tag.slc json.JString (SpaceAPIv15_Cam d)).
Proof.
  unfold encode.SpaceAPIv15, json.member. lookup_key.
  destruct (Nat.eqb _ 0); reflexivity.
Qed.

(** *** The documents the server holds and sends *)

Lemma template_with_None : template_with None = spaceApiData.
Proof. reflexivity. Qed.

Lemma reachable_template (g : SpaceAPIv15) :
  reachable g -> exists o, g = template_with o.
Proof.
  induction 1 as [| r up g Hg [o ->]].
  - exists None. reflexivity.
  - rewrite serve_route. destruct (_ || _); [| exists o; reflexivity].
    destruct (fetchLabState_cases up) as [[b Hb] | [e He]].
    + exists (Some b).
      rewrite (handle_ok _ r up (template_with o) b
                 (set_Open o {| State_Open := None; State_LastChange := 0;
                                State_TriggerPerson := EmptyString;
                                State_Message := EmptyString;
                                State_Icon := None |}) Hb eq_refl).
      reflexivity.
    + exists o. rewrite (handle_error _ r up _ e) by (rewrite He; reflexivity).
      reflexivity.
Qed.

(** A document is emitted only after a state was translated, and it is the
    template with that state. *)
Lemma emitted_template (r : http.Request) (up : Upstream) (g : SpaceAPIv15)
    (p : string) :
  reachable g -> emitted (serve r up g) = Some p ->
  exists b, fetchLabState up = (Some b, None, None)
            /\ document_after (serve r up g) = template_with (Some b)
            /\ p = json_Marshal (template_with (Some b)).
Proof.
  intros Hg. destruct (reachable_template g Hg) as [o ->].
  rewrite serve_route. destruct (_ || _); [| discriminate].
  destruct (fetchLabState_cases up) as [[b Hb] | [e He]].
  - rewrite (handle_ok _ r up (template_with o) b
               (set_Open o {| State_Open := None; State_LastChange := 0;
                              State_TriggerPerson := EmptyString;
                              State_Message := EmptyString;
                              State_Icon := None |}) Hb eq_refl).
    rewrite emitted_document. intros [= <-]. exists b.
    split; [exact Hb |]. split; reflexivity.
  - rewrite (handle_error _ r up _ e) by (rewrite He; reflexivity).
    rewrite emitted_error. discriminate.
Qed.

Lemma handle_template (w : http.ResponseWriter) (r : http.Request)
    (up : Upstream) (o : option bool) (b : bool) :
  fetchLabState up = (Some b, None, None) ->
  handleSpaceApiV15 w r up (template_with o)
  = Returned
      (http.Write (json_Marshal (template_with (Some b)))
         (http.SetHeader "Access-Control-Allow-Origin" "*"
            (http.SetHeader "Content-Type" "application/json" w)))
      (template_with (Some b)).
Proof.
  intros Hb.
  exact (handle_ok w r up (template_with o) b
           (set_Open o {| State_Open := None; State_LastChange := 0;
                          State_TriggerPerson := EmptyString;
                          State_Message := EmptyString;
                          State_Icon := None |}) Hb eq_refl).
Qed.

Lemma encode_template (o : option bool) :
  encode.SpaceAPIv15 (template_with o) = template_tree o.
Proof. destruct o as [[|] |]; vm_compute; reflexivity. Qed.

Lemma fetchLabState_literal (code : Z) (body : string) :
  decoded_status body = "open" \/ decoded_status body = "closed" ->
  exists b, fetchLabState (Responds code body) = (Some b, None, None)
            /\ (b = true <-> decoded_status body = "open").
Proof.
  rewrite fetchLabState_Responds.
  intros [-> | ->]; [exists true | exists false];
    (split; [reflexivity | split; [reflexivity || discriminate | reflexivity || discriminate]]).
Qed.



(** C4. The [lastchange] member of a state is left out exactly when
    its [LastChange] is zero, and the handler stores a change time only
    when the translator returns one, which it never does.  So every
    document the running server emits has a [state] without [lastchange],
    and the text [lastchange] occurs nowhere in it; in particular an
    upstream status of [open] or [closed] is answered with such a
    document. *)
Theorem lastchange_absent (r : http.Request) (g : SpaceAPIv15) :
  reachable g ->
  (forall (up : Upstream) (p : string),
      emitted (serve r up g) = Some p ->
      exists (d : SpaceAPIv15) (s : State),
        p = json_Marshal d
        /\ SpaceAPIv15_State d = Some s
        /\ json.member "state" (encode.SpaceAPIv15 d) = Some (encode.State s)
        /\ State_LastChange s = 0
        /\ json.member "lastchange" (encode.State s) = None
        /\ contains p "lastchange" = false)
  /\ (forall (code : Z) (body : string),
        decoded_status body = "open" \/ decoded_status body = "closed" ->
        exists p : string,
          emitted (handleSpaceApiV15 http.fresh r (Responds code body) g) = Some p
          /\ contains p "lastchange" = false)
  /\ (forall s : State,
        json.member "lastchange" (encode.State s) = None
        <-> State_LastChange s = 0).
Proof.
  intros Hg. split; [| split].
  - intros up p Hp.
    destruct (emitted_template r up g p Hg Hp) as (b & _ & _ & ->).
    exists (template_with (Some b)),
      {| State_Open := Some b; State_LastChange := 0;
         State_TriggerPerson := EmptyString; State_Message := EmptyString;
         State_Icon := None |}.
    split; [reflexivity |]. split; [reflexivity |].
    split; [rewrite document_member_state; reflexivity |].
    split; [reflexivity |]. split; [reflexivity |].
    destruct b; vm_compute; reflexivity.
  - intros code body Hs.
    destruct (reachable_template g Hg) as [o ->].
    destruct (fetchLabState_literal code body Hs) as (b & Hb & _).
    exists (json_Marshal (template_with (Some b))).
    rewrite (handle_template _ r _ o b Hb), emitted_document.
    split; [reflexivity |]. destruct b; vm_compute; reflexivity.
  - intros s. rewrite State_member_lastchange.
    destruct (State_LastChange s =? 0) eqn:E.
    + apply Z.eqb_eq in E. split; intros _; [exact E | reflexivity].
    + apply Z.eqb_neq in E. split; [discriminate | contradiction].
Qed.

Lemma lastchange_absent_witness :
  exists p : string,
    emitted (handleSpaceApiV15 http.fresh (GET "/v15")
               (Responds 200 body_open) spaceApiData) = Some p
    /\ contains p "lastchange" = false.
Proof.
  apply (proj1 (proj2 (lastchange_absent (GET "/v15") spaceApiData
                         reachable_start)) 200 body_open).
  left. vm_compute. reflexivity.
Defined.

(** C5. The template is serialized member by member as [template_tree]
    shows it: each populated field under the key of its tag, each unset
    optional field left out.  Every document the running server emits is
    the text of that tree for the boolean translated; it contains
    ["space":"Metalab"], and it contains no ["cam"]. *)
Theorem template_serialization (r : http.Request) (up : Upstream)
    (g : SpaceAPIv15) (p : string) :
  reachable g -> emitted (serve r up g) = Some p ->
  (exists b : bool, p = json.render (template_tree (Some b)))
  /\ contains p (q "'space':'Metalab'") = true
  /\ contains p (q "'cam'") = false
  /\ (forall o : option bool,
        encode.SpaceAPIv15 (template_with o) = template_tree o
        /\ json.member "space" (template_tree o) = Some (json.JString "Metalab")
        /\ json.member "cam" (template_tree o) = None
        /\ json.keys (template_tree o)
           = ["api_compatibility"; "space"; "logo"; "url"; "location";
              "spacefed"; "state"; "contact"; "links"; "projects"]).
Proof.
  intros Hg Hp.
  destruct (emitted_template r up g p Hg Hp) as (b & _ & _ & ->).
  split; [exists b; unfold json_Marshal; rewrite encode_template; reflexivity |].
  split; [destruct b; vm_compute; reflexivity |].
  split; [destruct b; vm_compute; reflexivity |].
  intros o. split; [apply encode_template |]. repeat split.
Qed.

Lemma template_serialization_witness :
  contains (json_Marshal (template_with (Some true))) (q "'space':'Metalab'") = true
  /\ contains (json_Marshal (template_with (Some true))) (q "'cam'") = false.
Proof.
  destruct (template_serialization (GET "/v15") (Responds 200 body_open)
              spaceApiData (json_Marshal (template_with (Some true)))
              reachable_start) as (_ & H1 & H2 & _).
  - vm_compute. reflexivity.
  - split; [exact H1 | exact H2].
Defined.

(** C6. What the code does on a body that is not JSON: [json.Unmarshal]
    reports a syntax error and leaves the status empty, [fetchLabState]
    drops that error and returns the error it makes for an unrecognised
    status, here with the empty status.  The error of the decoder is
    dropped as well when the status was read and a later member is
    ill-typed: the call succeeds. *)
Theorem decode_error_dropped :
  json_Unmarshal body_html {| Status := EmptyString |}
  = ({| Status := EmptyString |}, Some json.SyntaxError)
  /\ fetchLabState (Responds 200 body_html)
     = (None, None, Some (Errorf "unknown state: "))
  /\ fetchLabState (Responds 200 body_maybe)
     = (None, None, Some (Errorf "unknown state: maybe"))
  /\ json_Unmarshal (q "{'status':'open','status':1}") {| Status := EmptyString |}
     = ({| Status := "open" |}, Some (json.UnmarshalTypeError "number" "status"))
  /\ fetchLabState (Responds 200 (q "{'status':'open','status':1}"))
     = (Some true, None, None).
Proof.
  repeat split; vm_compute; reflexivity.
Qed.

(* ================================================================== *)
(** ** The server, request after request *)

Lemma serve_template (r : http.Request) (up : Upstream) (o : option bool) :
  serve r up (template_with o)
  = if registered r then
      match fetchLabState up with
      | (labState, _, None) =>
          Returned (document_response (template_with labState))
            (template_with labState)
      | (_, _, Some e) =>
          Returned (error_response 500 (Error e)) (template_with o)
      end
    else Returned (error_response 404 "404 page not found") (template_with o).
Proof.
  rewrite serve_route. unfold registered.
  destruct (_ || _); [| reflexivity].
  destruct (fetchLabState_cases up) as [[b Hb] | [e He]].
  - rewrite (handle_template _ r up o b Hb), Hb. reflexivity.
  - rewrite (handle_error _ r up _ e) by (rewrite He; reflexivity).
    rewrite He. reflexivity.
Qed.

Lemma document_after_serve (r : http.Request) (up : Upstream) (o : option bool) :
  document_after (serve r up (template_with o)) = template_with (observe o (r, up)).
Proof.
  rewrite serve_template. unfold observe. cbn [fst snd].
  destruct (registered r); [| reflexivity].
  destruct (fetchLabState up) as [[l t] [e |]]; reflexivity.
Qed.

Lemma response_of_serve (r : http.Request) (up : Upstream) (o o' : option bool) :
  response_of (serve r up (template_with o))
  = response_of (serve r up (template_with o')).
Proof.
  rewrite !serve_template.
  destruct (registered r); [| reflexivity].
  destruct (fetchLabState up) as [[l t] [e |]]; reflexivity.
Qed.

Lemma fetchLabState_state (up : Upstream) (b : bool) (t : option Z)
    (e : option error) :
  fetchLabState up = (Some b, t, e) ->
  exists (code : Z) (body : string),
    up = Responds code body
    /\ decoded_status body = (if b then "open" else "closed").
Proof.
  destruct up as [text | text | code body]; try discriminate.
  rewrite fetchLabState_Responds. intros H. exists code, body.
  split; [reflexivity |].
  destruct (String.eqb _ "open") eqn:Ho.
  - injection H as <- _ _. apply String.eqb_eq, Ho.
  - destruct (String.eqb _ "closed") eqn:Hc; [| discriminate].
    injection H as <- _ _. apply String.eqb_eq, Hc.
Qed.

Lemma decode_no_string_status (members : list (string * json.value))
    (r : LabStatus) (err : option json.error) :
  no_string_status (json.JObject members) ->
  fst (decode_LabStatus members r err) = r.
Proof.
  cbn [no_string_status]. intros H. revert err.
  induction H as [| [k v] rest Hkv _ IH]; intros err; [reflexivity |].
  cbn [decode_LabStatus]. cbn [fst snd] in Hkv.
  destruct (String.eqb (json.foldName k) (json.foldName "status"));
    [| apply IH].
  specialize (Hkv eq_refl). destruct v; try apply IH. contradiction.
Qed.

Lemma emitted_document_response (d g : SpaceAPIv15) :
  emitted (Returned (document_response d) g) = Some (json_Marshal d).
Proof. reflexivity. Qed.

Lemma serve_all_template (reqs : list (http.Request * Upstream)) :
  exists o : option bool, snd (serve_all reqs spaceApiData) = template_with o.
Proof.
  change spaceApiData with (template_with None).
  generalize (@None bool). induction reqs as [| [r up] rest IH]; intros o.
  - exists o. reflexivity.
  - cbn [serve_all]. rewrite document_after_serve.
    destruct (IH (observe o (r, up))) as [o' Ho'].
    exists o'.
    destruct (serve_all rest (template_with (observe o (r, up)))) as [os g'].
    exact Ho'.
Qed.

(** While the server runs, the [State] pointer of the shared document is
    never nil: the handler's assignment through it cannot panic, every
    request is answered, and the document stays one the server can hold. *)
Theorem handler_never_panics (g : SpaceAPIv15) :
  reachable g ->
  SpaceAPIv15_State g <> None
  /\ forall (r : http.Request) (up : Upstream),
       exists (w : http.ResponseWriter) (g' : SpaceAPIv15),
         serve r up g = Returned w g' /\ SpaceAPIv15_State g' <> None.
Proof.
  intros Hg. destruct (reachable_template g Hg) as [o ->].
  split; [discriminate |].
  intros r up. rewrite serve_template.
  destruct (registered r);
    [destruct (fetchLabState up) as [[l t] [e |]] |];
    eexists; eexists; (split; [reflexivity | discriminate]).
Qed.

Lemma handler_never_panics_witness :
  SpaceAPIv15_State
    (document_after (serve (GET "/v14") (Responds 200 body_open) spaceApiData))
  <> None.
Proof.
  apply (handler_never_panics
           (document_after (serve (GET "/v14") (Responds 200 body_open) spaceApiData))).
  apply reachable_serve, reachable_start.
Defined.

(** After any sequence of requests the shared document is the template
    holding the state of the last request that was translated: a failed
    fetch, an unknown status or a path without a route leaves the state
    of the request before in place. *)
Theorem document_holds_last_state (reqs : list (http.Request * Upstream))
    (o : option bool) :
  snd (serve_all reqs (template_with o)) = template_with (fold_left observe reqs o).
Proof.
  revert o. induction reqs as [| [r up] rest IH]; intros o; [reflexivity |].
  cbn [serve_all fold_left].
  rewrite document_after_serve.
  specialize (IH (observe o (r, up))).
  destruct (serve_all rest (template_with (observe o (r, up)))) as [os g'].
  exact IH.
Qed.

(** When requests are served one after the other, the response to a
    request depends on what the translator returns for it and on nothing
    else: not on the status code of the upstream response, and not on the
    requests served before it, whatever state they left in the shared
    document. *)
Theorem response_determined_by_translation
    (before1 before2 : list (http.Request * Upstream)) (r : http.Request)
    (up1 up2 : Upstream) :
  fetchLabState up1 = fetchLabState up2 ->
  response_of (serve r up1 (snd (serve_all before1 spaceApiData)))
  = response_of (serve r up2 (snd (serve_all before2 spaceApiData))).
Proof.
  intros Hf.
  destruct (serve_all_template before1) as [o1 ->].
  destruct (serve_all_template before2) as [o2 ->].
  rewrite !serve_template, Hf.
  destruct (registered r); [| reflexivity].
  destruct (fetchLabState up2) as [[l t] [e |]]; reflexivity.
Qed.

Lemma response_determined_by_translation_witness :
  response_of
    (serve (GET "/v15") (Responds 200 body_open) (snd (serve_all [] spaceApiData)))
  = response_of
      (serve (GET "/v15") (Responds 503 body_open)
         (snd (serve_all [(GET "/v14", Responds 200 body_closed)] spaceApiData))).
Proof.
  apply (response_determined_by_translation []
           [(GET "/v14", Responds 200 body_closed)] (GET "/v15")
           (Responds 200 body_open) (Responds 503 body_open)).
  reflexivity.
Defined.

(** The responses to a sequence of requests are the responses each request
    would get alone from a server just started. *)
Theorem responses_independent (reqs : list (http.Request * Upstream)) :
  map response_of (fst (serve_all reqs spaceApiData))
  = map (fun req => response_of (serve (fst req) (snd req) spaceApiData)) reqs.
Proof.
  change spaceApiData with (template_with None) at 1.
  generalize (@None bool) at 1. intros o. revert o.
  induction reqs as [| [r up] rest IH]; intros o; [reflexivity |].
  cbn [serve_all]. rewrite document_after_serve.
  specialize (IH (observe o (r, up))).
  destruct (serve_all rest (template_with (observe o (r, up)))) as [os g'].
  cbn [fst map snd] in *. rewrite IH. f_equal.
  change spaceApiData with (template_with None). apply response_of_serve.
Qed.

(** When calls of the handler do not overlap: in a call for which the
    translator returns a state, whatever requests were served before, the
    handler writes on its writer the content type [application/json], the
    header that allows any origin, status 200 and, as the body, the
    template holding that state; the shared document is that template when
    it returns.  (The server sends what the handler wrote, without the
    body when the method is [HEAD].) *)
Theorem success_response (before : list (http.Request * Upstream))
    (r : http.Request) (up : Upstream) (b : bool) :
  fetchLabState up = (Some b, None, None) ->
  handleSpaceApiV15 http.fresh r up (snd (serve_all before spaceApiData))
  = Returned
      {| http.header := [("Content-Type", "application/json");
                         ("Access-Control-Allow-Origin", "*")];
         http.status := Some 200;
         http.body := json.render (template_tree (Some b)) |}
      (template_with (Some b)).
Proof.
  intros Hb. destruct (serve_all_template before) as [o ->].
  rewrite (handle_template _ r up o b Hb). unfold json_Marshal.
  rewrite encode_template. reflexivity.
Qed.

Lemma success_response_witness :
  handleSpaceApiV15 http.fresh (GET "/v14") (Responds 200 body_closed)
    (snd (serve_all [(GET "/v15", Responds 200 body_open)] spaceApiData))
  = Returned
      {| http.header := [("Content-Type", "application/json");
                         ("Access-Control-Allow-Origin", "*")];
         http.status := Some 200;
         http.body := json.render (template_tree (Some false)) |}
      (template_with (Some false)).
Proof.
  apply (success_response [(GET "/v15", Responds 200 body_open)] (GET "/v14")
           (Responds 200 body_closed) false).
  vm_compute. reflexivity.
Defined.

(** [main] registers the handler for the paths [/v14] and [/v15] and for
    no other.  A request to any other path does not reach
    [handleSpaceApiV15]: whatever the upstream source would answer, no
    document is written in reply and the shared document stays as it
    is. *)
Theorem other_paths_reach_no_handler (r : http.Request) (up : Upstream)
    (g : SpaceAPIv15) :
  registered r = false ->
  http.Handler DefaultServeMux r = None
  /\ emitted (serve r up g) = None
  /\ document_after (serve r up g) = g
  /\ forall up' : Upstream, serve r up' g = serve r up g.
Proof.
  intros Hr. unfold registered in Hr.
  apply orb_false_elim in Hr as [H14 H15].
  assert (Hh : http.Handler DefaultServeMux r = None).
  { unfold DefaultServeMux, http.HandleFunc. cbn [app http.Handler].
    rewrite H14, H15. reflexivity. }
  split; [exact Hh |].
  unfold serve. rewrite Hh. repeat split.
Qed.

Lemma other_paths_reach_no_handler_witness :
  http.Handler DefaultServeMux (GET "/v15/") = None
  /\ emitted (serve (GET "/v15/") (Responds 200 body_open) spaceApiData) = None
  /\ document_after (serve (GET "/v15/") (Responds 200 body_open) spaceApiData)
     = spaceApiData
  /\ forall up' : Upstream,
       serve (GET "/v15/") up' spaceApiData
       = serve (GET "/v15/") (Responds 200 body_open) spaceApiData.
Proof.
  apply (other_paths_reach_no_handler (GET "/v15/") (Responds 200 body_open)
           spaceApiData).
  reflexivity.
Defined.

(** Every body the handler writes with status 200 while the server runs
    is valid JSON: read back, it is the tree of the template with a
    boolean in [state.open]. *)
Theorem emitted_body_parses (r : http.Request) (up : Upstream)
    (g : SpaceAPIv15) (p : string) :
  reachable g -> emitted (serve r up g) = Some p ->
  exists b : bool, json.parse p = Some (template_tree (Some b)).
Proof.
  intros Hg Hp.
  destruct (emitted_template r up g p Hg Hp) as (b & _ & _ & ->).
  exists b. destruct b; vm_compute; reflexivity.
Qed.

Lemma emitted_body_parses_witness :
  exists b : bool,
    json.parse (json_Marshal (template_with (Some true)))
    = Some (template_tree (Some b)).
Proof.
  apply (emitted_body_parses (GET "/v15") (Responds 200 body_open) spaceApiData
           (json_Marshal (template_with (Some true))) reachable_start).
  vm_compute. reflexivity.
Defined.

(** When requests are served one after the other, the state in an
    emitted document is the one the upstream source gave for this very
    request: whatever requests were served before, [open] is [true] only
    when the status decoded for this request is [open], and [false] only
    when it is [closed]; a state left by an earlier request is not
    sent. *)
Theorem emitted_state_is_fresh (before : list (http.Request * Upstream))
    (r : http.Request) (up : Upstream) (b : bool) :
  emitted (serve r up (snd (serve_all before spaceApiData)))
  = Some (json_Marshal (template_with (Some b))) ->
  exists (code : Z) (body : string),
    up = Responds code body
    /\ decoded_status body = (if b then "open" else "closed").
Proof.
  destruct (serve_all_template before) as [o ->].
  rewrite serve_template.
  destruct (registered r); [| discriminate].
  destruct (fetchLabState up) as [[[b' |] t] [e |]] eqn:Hf; try discriminate.
  - rewrite emitted_document_response.
    intros Heq. injection Heq as Heq.
    assert (b' = b) as ->.
    { destruct b, b'; try reflexivity; vm_compute in Heq; discriminate. }
    exact (fetchLabState_state up b t None Hf).
  - destruct (fetchLabState_cases up) as [[b1 H1] | [e1 H1]];
      rewrite H1 in Hf; discriminate.
Qed.

Lemma emitted_state_is_fresh_witness :
  exists (code : Z) (body : string),
    Responds 200 body_open = Responds code body
    /\ decoded_status body = "open".
Proof.
  apply (emitted_state_is_fresh [(GET "/v14", Responds 200 body_closed)]
           (GET "/v14") (Responds 200 body_open) true).
  vm_compute. reflexivity.
Defined.

(** A status the upstream source sends in plain characters, other than
    [open] and [closed], comes back to the client in the 500 response: its
    body is [unknown state: ] and that status, sent as plain text that is
    not to be sniffed; the shared document is untouched. *)
Theorem unknown_status_echoed (r : http.Request) (code : Z) (s : string)
    (g : SpaceAPIv15) :
  plain s = true -> s <> "open" -> s <> "closed" ->
  handleSpaceApiV15 http.fresh r (Responds code (status_body s)) g
  = Returned (error_response 500 ("unknown state: " ++ s)) g.
Proof.
  intros Hs Ho Hc.
  assert (He : snd (fetchLabState (Responds code (status_body s)))
               = Some (Errorf ("unknown state: " ++ s))).
  { rewrite fetchLabState_Responds, (decoded_status_body s Hs).
    apply String.eqb_neq in Ho, Hc. rewrite Ho, Hc. reflexivity. }
  rewrite (handle_error _ r _ g _ He). reflexivity.
Qed.

Lemma unknown_status_echoed_witness :
  handleSpaceApiV15 http.fresh (GET "/v15") (Responds 200 (status_body "on"))
    spaceApiData
  = Returned (error_response 500 ("unknown state: " ++ "on")) spaceApiData.
Proof.
  apply (unknown_status_echoed (GET "/v15") 200 "on" spaceApiData).
  - reflexivity.
  - discriminate.
  - discriminate.
Defined.

(** A body that is valid JSON but gives no status, because it is no
    object, or an object without a [status] member, or with one that is
    no string, is an unknown state with the empty status: the translator
    returns the error [unknown state: ] and no state.  The earlier shape
    of the upstream response is such a body. *)
Theorem status_missing_is_unknown (code : Z) (body : string) (v : json.value) :
  json.parse body = Some v -> no_string_status v ->
  fetchLabState (Responds code body)
  = (None, None, Some (Errorf "unknown state: ")).
Proof.
  intros Hp Hv.
  assert (Hd : decoded_status body = EmptyString).
  { unfold decoded_status, json_Unmarshal. rewrite Hp.
    destruct v; try reflexivity.
    rewrite (decode_no_string_status _ _ _ Hv). reflexivity. }
  rewrite fetchLabState_Responds, Hd. reflexivity.
Qed.

Lemma status_missing_is_unknown_witness :
  fetchLabState (Responds 200 body_earlier)
  = (None, None, Some (Errorf "unknown state: ")).
Proof.
  apply (status_missing_is_unknown 200 body_earlier
           (json.JObject [("state", json.JString "on");
                          ("last_changed", json.JNumber "1700000000");
                          ("last_updated", json.JNumber "1700000060")])).
  - vm_compute. reflexivity.
  - cbn [no_string_status]. repeat constructor; cbn [fst snd]; intros H;
      vm_compute in H; discriminate.
Defined.

(* ================================================================== *)
(** ** The encoding of the schema, whatever the document holds *)

Lemma subseq_NoDup {A : Type} (l1 l2 : list A) :
  subseq l1 l2 -> NoDup l2 -> NoDup l1.
Proof.
  assert (Hin : forall (a b : list A), subseq a b -> forall x, In x a -> In x b).
  { induction 1 as [| y a b _ IH | y a b _ IH]; intros x Hx.
    - exact Hx.
    - right. apply IH, Hx.
    - destruct Hx as [-> | Hx]; [left; reflexivity | right; apply IH, Hx]. }
  induction 1 as [| y a b Hs IH | y a b Hs IH]; intros Hnd.
  - constructor.
  - apply IH. inversion Hnd; assumption.
  - inversion Hnd as [| ? ? Hy Hb]; subst. constructor; [| apply IH, Hb].
    intros Hy'. apply Hy, (Hin a b Hs), Hy'.
Qed.

Lemma subseq_always (k : string) (v : json.value) (rest : tag.members)
    (ks : list string) :
  subseq (map fst rest) ks ->
  subseq (map fst (tag.always k v ++ rest)) (k :: ks).
Proof. intros H. apply subseq_take, H. Qed.

Lemma subseq_omitempty (e : bool) (k : string) (v : json.value)
    (rest : tag.members) (ks : list string) :
  subseq (map fst rest) ks ->
  subseq (map fst (tag.omitempty e k v ++ rest)) (k :: ks).
Proof.
  intros H. destruct e; [apply subseq_skip, H | apply subseq_take, H].
Qed.

Lemma subseq_always_last (k : string) (v : json.value) :
  subseq (map fst (tag.always k v)) [k].
Proof. apply subseq_take, subseq_nil. Qed.

Lemma subseq_omitempty_last (e : bool) (k : string) (v : json.value) :
  subseq (map fst (tag.omitempty e k v)) [k].
Proof.
  destruct e; [apply subseq_skip, subseq_nil | apply subseq_take, subseq_nil].
Qed.

(** The keys of a member list built from tagged fields, against the tags
    in order. *)
Ltac keys_subseq :=
  unfold tag.omit_string, tag.omit_int64, tag.omit_float, tag.omit_ptr,
    tag.omit_slice;
  repeat rewrite <- app_assoc;
  repeat first [ apply subseq_always | apply subseq_omitempty ];
  first [ apply subseq_always_last | apply subseq_omitempty_last
        | apply subseq_nil ].

Ltac keys_NoDup :=
  repeat (constructor; [cbn [In]; intuition discriminate |]); constructor.

Lemma distinct_keys_object (m : list (string * json.value)) :
  NoDup (map fst m) ->
  Forall (fun kv => distinct_keys (snd kv)) m ->
  distinct_keys (json.JObject m).
Proof.
  intros Hk Hv. cbn [distinct_keys]. split; [exact Hk |]. clear Hk.
  induction Hv as [| kv r H _ IH]; [exact I | split; [exact H | exact IH]].
Qed.

Lemma distinct_keys_slc {A : Type} (enc : A -> json.value) (s : slice A) :
  (forall x, distinct_keys (enc x)) -> distinct_keys (tag.slc enc s).
Proof.
  intros H. destruct s as [l |]; [| exact I].
  cbn [tag.slc distinct_keys].
  induction l as [| x l IH]; [exact I | split; [apply H | exact IH]].
Qed.

Lemma distinct_keys_ptr {A : Type} (enc : A -> json.value) (p : option A) :
  (forall x, distinct_keys (enc x)) -> distinct_keys (tag.ptr enc p).
Proof. intros H. destruct p; [apply H | exact I]. Qed.

Lemma Forall_always (P : string * json.value -> Prop) (k : string)
    (v : json.value) :
  P (k, v) -> Forall P (tag.always k v).
Proof. intros H. repeat constructor. exact H. Qed.

Lemma Forall_omitempty (P : string * json.value -> Prop) (e : bool)
    (k : string) (v : json.value) :
  P (k, v) -> Forall P (tag.omitempty e k v).
Proof. intros H. destruct e; repeat constructor. exact H. Qed.

Create HintDb schema.

(** An encoded struct has distinct keys everywhere, once its parts have. *)
Ltac object_distinct tags :=
  apply distinct_keys_object;
  [ apply (subseq_NoDup _ tags); [keys_subseq | keys_NoDup]
  | unfold tag.omit_string, tag.omit_int64, tag.omit_float, tag.omit_ptr,
      tag.omit_slice;
    repeat (apply Forall_app; split);
    first [ apply Forall_always | apply Forall_omitempty ];
    cbn [snd];
    first [ exact I
          | solve [ apply distinct_keys_slc; intros; auto with schema; exact I ]
          | solve [ apply distinct_keys_ptr; intros; auto with schema; exact I ] ] ].

Lemma Area_distinct (a : Area) : distinct_keys (encode.Area a).
Proof.
  unfold encode.Area.
  object_distinct ["name"; "description"; "square_meters"].
Qed.
#[local] Hint Resolve Area_distinct : schema.

Lemma Location_distinct (l : Location) : distinct_keys (encode.Location l).
Proof.
  unfold encode.Location.
  object_distinct ["address"; "lat"; "lon"; "timezone"; "country_code";
                   "hint"; "areas"].
Qed.
#[local] Hint Resolve Location_distinct : schema.

Lemma SpaceFed_distinct (f : SpaceFed) : distinct_keys (encode.SpaceFed f).
Proof. unfold encode.SpaceFed. object_distinct ["spacenet"; "spacesaml"]. Qed.
#[local] Hint Resolve SpaceFed_distinct : schema.

Lemma StateIcon_distinct (i : StateIcon) : distinct_keys (encode.StateIcon i).
Proof. unfold encode.StateIcon. object_distinct ["open"; "closed"]. Qed.
#[local] Hint Resolve StateIcon_distinct : schema.

Lemma State_distinct (s : State) : distinct_keys (encode.State s).
Proof.
  unfold encode.State.
  object_distinct ["open"; "lastchange"; "trigger_person"; "message"; "icon"].
Qed.
#[local] Hint Resolve State_distinct : schema.

Lemma Event_distinct (e : Event) : distinct_keys (encode.Event e).
Proof.
  unfold encode.Event. object_distinct ["name"; "type"; "timestamp"; "extra"].
Qed.
#[local] Hint Resolve Event_distinct : schema.

Lemma Keymaster_distinct (k : Keymaster) : distinct_keys (encode.Keymaster k).
Proof.
  unfold encode.Keymaster.
  object_distinct ["name"; "irc_nick"; "phone"; "email"; "twitter"; "xmpp";
                   "mastodon"; "matrix"].
Qed.
#[local] Hint Resolve Keymaster_distinct : schema.

Lemma Contact_distinct (c : Contact) : distinct_keys (encode.Contact c).
Proof.
  unfold encode.Contact.
  object_distinct ["phone"; "sip"; "keymasters"; "irc"; "twitter"; "mastodon";
                   "facebook"; "identica"; "foursquare"; "email"; "ml"; "xmpp";
                   "issue_mail"; "gopher"; "matrix"; "mumble"].
Qed.
#[local] Hint Resolve Contact_distinct : schema.

Lemma ValueSensor_distinct (s : ValueSensor) :
  distinct_keys (encode.ValueSensor s).
Proof.
  unfold encode.ValueSensor, encode.BaseSensor.
  object_distinct ["location"; "name"; "description"; "lastchange"; "value";
                   "unit"].
Qed.
#[local] Hint Resolve ValueSensor_distinct : schema.

Lemma DoorSensor_distinct (s : DoorSensor) : distinct_keys (encode.DoorSensor s).
Proof.
  unfold encode.DoorSensor, encode.BaseSensor.
  object_distinct ["location"; "name"; "description"; "lastchange"; "value"].
Qed.
#[local] Hint Resolve DoorSensor_distinct : schema.

Lemma RadiationSensor_distinct (s : RadiationSensor) :
  distinct_keys (encode.RadiationSensor s).
Proof.
  unfold encode.RadiationSensor, encode.BaseSensor.
  object_distinct ["location"; "name"; "description"; "lastchange"; "value";
                   "unit"; "dead_time"; "conversion_factor"].
Qed.
#[local] Hint Resolve RadiationSensor_distinct : schema.

Lemma RadiationSensors_distinct (r : RadiationSensors) :
  distinct_keys (encode.RadiationSensors r).
Proof.
  unfold encode.RadiationSensors.
  object_distinct ["alpha"; "beta"; "gamma"; "beta_gamma"].
Qed.
#[local] Hint Resolve RadiationSensors_distinct : schema.

Lemma Sensors_distinct (s : Sensors) : distinct_keys (encode.Sensors s).
Proof.
  unfold encode.Sensors.
  object_distinct ["temperature"; "carbondioxide"; "door_locked"; "barometer";
                   "radiation"; "humidity"; "beverage_supply"].
Qed.
#[local] Hint Resolve Sensors_distinct : schema.

Lemma Feed_distinct (f : Feed) : distinct_keys (encode.Feed f).
Proof. unfold encode.Feed. object_distinct ["type"; "url"]. Qed.
#[local] Hint Resolve Feed_distinct : schema.

Lemma Feeds_distinct (f : Feeds) : distinct_keys (encode.Feeds f).
Proof.
  unfold encode.Feeds. object_distinct ["blog"; "wiki"; "calendar"; "flickr"].
Qed.
#[local] Hint Resolve Feeds_distinct : schema.

Lemma Link_distinct (l : Link) : distinct_keys (encode.Link l).
Proof. unfold encode.Link. object_distinct ["name"; "description"; "url"]. Qed.
#[local] Hint Resolve Link_distinct : schema.

Lemma Cache_distinct (c : Cache) : distinct_keys (encode.Cache c).
Proof. unfold encode.Cache. object_distinct ["schedule"]. Qed.
#[local] Hint Resolve Cache_distinct : schema.

Lemma RadioShow_distinct (r : RadioShow) : distinct_keys (encode.RadioShow r).
Proof.
  unfold encode.RadioShow.
  object_distinct ["name"; "url"; "type"; "start_time"; "end_time";
                   "stream_url"; "stream_type"; "description"; "tags"].
Qed.
#[local] Hint Resolve RadioShow_distinct : schema.

Lemma lookup_In (k : string) (v : json.value) (m : list (string * json.value)) :
  json.lookup k m = Some v -> In (k, v) m.
Proof.
  induction m as [| [k' v'] m IH]; [discriminate |].
  cbn [json.lookup]. destruct (String.eqb k k') eqn:E.
  - apply String.eqb_eq in E as ->. intros [= ->]. left. reflexivity.
  - intros H. right. apply IH, H.
Qed.

Lemma In_always (kv : string * json.value) (k : string) (v : json.value) :
  In kv (tag.always k v) -> kv = (k, v).
Proof. intros [H | []]. symmetry. exact H. Qed.

Lemma In_omitempty (kv : string * json.value) (e : bool) (k : string)
    (v : json.value) :
  In kv (tag.omitempty e k v) -> e = false /\ kv = (k, v).
Proof.
  destruct e; [intros [] |]. intros [H | []]. split; [reflexivity |].
  symmetry. exact H.
Qed.

(** Whatever the document holds, no object in its encoding, at any depth,
    has the same key twice: the tags of each struct are distinct, and the
    fields of the embedded [BaseSensor] clash with none of the sensor that
    embeds it. *)
Theorem marshal_keys_distinct (d : SpaceAPIv15) :
  distinct_keys (encode.SpaceAPIv15 d).
Proof.
  unfold encode.SpaceAPIv15.
  object_distinct SpaceAPIv15_tags.
Qed.

(** Whatever the document holds, the members of its encoding come in the
    order the fields are declared in, [api_compatibility] and [space]
    among them. *)
Theorem document_keys_in_order (d : SpaceAPIv15) :
  subseq (json.keys (encode.SpaceAPIv15 d)) SpaceAPIv15_tags
  /\ (exists rest : list string,
         json.keys (encode.SpaceAPIv15 d)
         = "api_compatibility" :: "space" :: rest).
Proof.
  unfold encode.SpaceAPIv15, json.keys. split.
  - keys_subseq.
  - eexists. reflexivity.
Qed.

(** Whatever the document holds, a member of its encoding other than
    [api_compatibility] and [space] is there only with something in it:
    its value is never [null], never the empty string and never an empty
    array. *)
Theorem optional_members_never_empty (d : SpaceAPIv15) (k : string)
    (v : json.value) :
  json.member k (encode.SpaceAPIv15 d) = Some v ->
  k <> "api_compatibility" -> k <> "space" ->
  v <> json.JNull /\ v <> json.JString EmptyString /\ v <> json.JArray [].
Proof.
  unfold encode.SpaceAPIv15, json.member. intros H Ha Hs.
  apply lookup_In in H.
  unfold tag.omit_string, tag.omit_ptr, tag.omit_slice in H.
  repeat (apply in_app_or in H; destruct H as [H | H]);
    try (apply In_always in H; injection H as -> _; contradiction);
    apply In_omitempty in H; destruct H as [He H]; injection H as _ ->.
  all: try (destruct (SpaceAPIv15_Logo d); [discriminate He |];
            repeat split; discriminate).
  all: try (destruct (SpaceAPIv15_URL d); [discriminate He |];
            repeat split; discriminate).
  all: match type of He with
       | Nat.eqb (len ?s) 0 = false =>
           destruct s as [[| x l] |]; try discriminate He;
           repeat split; discriminate
       | _ = false =>
           match goal with
           | |- context [tag.ptr _ ?p] =>
               destruct p; [| discriminate He]; repeat split; discriminate
           end
       end.
Qed.

Lemma optional_members_never_empty_witness :
  json.JArray [json.JString "https://github.com/metalab";
               json.JString "https://metalab.at/wiki/Projekte_Neu"]
  <> json.JArray [].
Proof.
  apply (optional_members_never_empty spaceApiData "projects").
  - reflexivity.
  - discriminate.
  - discriminate.
Defined.

(** Every field the source marks as required is a member of the encoding
    of its struct whatever the struct holds, an empty string, a zero or
    [false] included; for the sensors this holds of the [location] they
    take from the embedded [BaseSensor] as of their own value and unit. *)
Theorem required_members_always_present :
  (forall a : Area,
      json.member "square_meters" (encode.Area a)
      = Some (tag.float (Area_SquareMeters a)))
  /\ (forall f : SpaceFed,
        json.member "spacenet" (encode.SpaceFed f)
        = Some (json.JBool (SpaceFed_SpaceNet f))
        /\ json.member "spacesaml" (encode.SpaceFed f)
           = Some (json.JBool (SpaceFed_SpaceSAML f)))
  /\ (forall i : StateIcon,
        json.member "open" (encode.StateIcon i)
        = Some (json.JString (StateIcon_Open i))
        /\ json.member "closed" (encode.StateIcon i)
           = Some (json.JString (StateIcon_Closed i)))
  /\ (forall e : Event,
        json.member "name" (encode.Event e) = Some (json.JString (Event_Name e))
        /\ json.member "type" (encode.Event e)
           = Some (json.JString (Event_Type e))
        /\ json.member "timestamp" (encode.Event e)
           = Some (tag.int64 (Event_Timestamp e)))
  /\ (forall s : ValueSensor,
        json.member "location" (encode.ValueSensor s)
        = Some (json.JString (BaseSensor_Location (ValueSensor_Base s)))
        /\ json.member "value" (encode.ValueSensor s)
           = Some (tag.float (ValueSensor_Value s))
        /\ json.member "unit" (encode.ValueSensor s)
           = Some (json.JString (ValueSensor_Unit s)))
  /\ (forall s : DoorSensor,
        json.member "location" (encode.DoorSensor s)
        = Some (json.JString (BaseSensor_Location (DoorSensor_Base s)))
        /\ json.member "value" (encode.DoorSensor s)
           = Some (json.JBool (DoorSensor_Value s)))
  /\ (forall s : RadiationSensor,
        json.member "location" (encode.RadiationSensor s)
        = Some (json.JString (BaseSensor_Location (RadiationSensor_Base s)))
        /\ json.member "value" (encode.RadiationSensor s)
           = Some (tag.float (RadiationSensor_Value s))
        /\ json.member "unit" (encode.RadiationSensor s)
           = Some (json.JString (RadiationSensor_Unit s)))
  /\ (forall f : Feed,
        json.member "url" (encode.Feed f) = Some (json.JString (Feed_URL f)))
  /\ (forall l : Link,
        json.member "name" (encode.Link l) = Some (json.JString (Link_Name l))
        /\ json.member "url" (encode.Link l) = Some (json.JString (Link_URL l)))
  /\ (forall c : Cache,
        json.member "schedule" (encode.Cache c)
        = Some (json.JString (Cache_Schedule c)))
  /\ (forall r : RadioShow,
        json.member "name" (encode.RadioShow r)
        = Some (json.JString (RadioShow_Name r))
        /\ json.member "url" (encode.RadioShow r)
           = Some (json.JString (RadioShow_URL r))
        /\ json.member "type" (encode.RadioShow r)
           = Some (json.JString (RadioShow_Type r))).
Proof.
  repeat split; intros;
    unfold encode.Area, encode.SpaceFed, encode.StateIcon, encode.Event,
      encode.ValueSensor, encode.DoorSensor, encode.RadiationSensor,
      encode.BaseSensor, encode.Feed, encode.Link, encode.Cache,
      encode.RadioShow, json.member;
    lookup_key; reflexivity.
Qed.

(** Once a request has been translated, [state.open] of the shared
    document is never nil again: whatever requests follow, the document is
    the template holding some boolean. *)
Theorem open_never_reset (reqs : list (http.Request * Upstream)) (b : bool) :
  exists b' : bool,
    snd (serve_all reqs (template_with (Some b))) = template_with (Some b').
Proof.
  revert b. induction reqs as [| [r up] rest IH]; intros b.
  - exists b. reflexivity.
  - cbn [serve_all]. rewrite document_after_serve.
    assert (Ho : exists b1, observe (Some b) (r, up) = Some b1).
    { unfold observe. cbn [fst snd].
      destruct (registered r); [| exists b; reflexivity].
      destruct (fetchLabState_cases up) as [[b1 ->] | [e ->]];
        [exists b1 | exists b]; reflexivity. }
    destruct Ho as [b1 ->]. destruct (IH b1) as [b' Hb'].
    exists b'.
    destruct (serve_all rest (template_with (Some b1))) as [os g'].
    exact Hb'.
Qed.
